(** * E-Learning platform: authorization and relationship consistency

    A shallow embedding of the Express/Mongoose back end
    (controllers, middleware and models) and the properties of its
    authorization and relationship-synchronisation layer.

    Conventions of the embedding
    - a MongoDB collection is a finite map from ObjectId to document;
    - a handler is a computation in a state-and-exception monad: what a
      handler wrote before it threw stays written (there is no
      transaction anywhere in the code);
    - values the server draws while serving a request (fresh ObjectIds,
      the bcrypt salt) are an explicit input [Gen] of the request;
    - bcrypt and jsonwebtoken are external: a hash is a symbolic term,
      a token carries the outcome of its signature and expiry checks;
    - JavaScript strings are byte strings, numbers of request bodies are
      integers, identifiers of paths and bodies are well-formed ObjectIds. *)

From Stdlib Require Import ZArith Floats Ascii String.
From stdpp Require Import gmap strings list fin_maps pretty.

Local Open Scope string_scope.
Local Open Scope Z_scope.

(** ** Strings *)

Module Str.

(** White space of [\s] and of [String.prototype.trim], on bytes. *)
Definition is_space (c : ascii) : bool :=
  let n := nat_of_ascii c in
  bool_decide (n = 32%nat) || (bool_decide (9 ≤ n)%nat && bool_decide (n ≤ 13)%nat).

Fixpoint trim_start (s : string) : string :=
  match s with
  | String c r => if is_space c then trim_start r else s
  | EmptyString => EmptyString
  end.

Fixpoint rev_go (s acc : string) : string :=
  match s with
  | String c r => rev_go r (String c acc)
  | EmptyString => acc
  end.

Definition rev (s : string) : string := rev_go s "".

Definition trim (s : string) : string := rev (trim_start (rev (trim_start s))).

Definition lower_char (c : ascii) : ascii :=
  let n := nat_of_ascii c in
  if bool_decide (65 ≤ n)%nat && bool_decide (n ≤ 90)%nat
  then ascii_of_nat (n + 32) else c.

Fixpoint toLowerCase (s : string) : string :=
  match s with
  | String c r => String (lower_char c) (toLowerCase r)
  | EmptyString => EmptyString
  end.

(** A value that JavaScript treats as false in [if (x)], [!x] and
    [x || d]: [undefined] or the empty string. *)
Definition falsy (o : option string) : bool :=
  match o with
  | None | Some "" => true
  | Some _ => false
  end.

Definition eqb (a b : string) : bool := bool_decide (a = b).

End Str.

(** ** The derived average rating (models/Course.js, virtual [averageRating]) *)

Module Rating.

(** What the getter returns: the number [0] or the string made by
    [toFixed]. *)
Inductive JsValue :=
| JNumber (z : Z)
| JString (s : string).

(** An integer as a JavaScript number (exact below [2^53]). *)
Definition number_of_Z (z : Z) : float :=
  match z with
  | Z0 => PrimFloat.zero
  | Zpos _ => PrimFloat.of_uint63 (Uint63.of_Z z)
  | Zneg _ => PrimFloat.opp (PrimFloat.of_uint63 (Uint63.of_Z (- z)))
  end.

Definition decimal (z : Z) : string := pretty (Z.to_N z).

(** [n] with [n / 10 - x] as close to zero as possible, the larger one
    on a tie, for the exact value [x = m * 2^e] of a number. *)
Definition nearest_tenths (m : positive) (e : Z) : Z :=
  match e with
  | Zneg k => (20 * Zpos m + 2 ^ Zpos k) / (2 * 2 ^ Zpos k)
  | _ => 10 * Zpos m * 2 ^ e
  end.

Definition fixed1 (n : Z) : string :=
  decimal (n / 10) +:+ "." +:+ decimal (n mod 10).

(** [Number.prototype.toFixed(1)], for numbers below [1e21]. *)
Definition toFixed1 (x : float) : string :=
  match Prim2SF x with
  | S754_zero _ => "0.0"
  | S754_infinity false => "Infinity"
  | S754_infinity true => "-Infinity"
  | S754_nan => "NaN"
  | S754_finite sign m e =>
      (if sign then "-" else "") +:+ fixed1 (nearest_tenths m e)
  end.

(** [this.reviews.reduce((acc, review) => acc + review.rating, 0)] *)
Definition sum_ratings (ratings : list Z) : Z :=
  fold_left (fun acc rating => acc + rating) ratings 0.

(** [sum / this.reviews.length] *)
Definition quotient (sum : Z) (count : nat) : float :=
  PrimFloat.div (number_of_Z sum) (number_of_Z (Z.of_nat count)).

(** The getter; [reviews] is [None] while the virtual is not populated. *)
Definition averageRating (reviews : option (list Z)) : JsValue :=
  match reviews with
  | Some ((_ :: _) as rs) =>
      let sum := sum_ratings rs in
      JString (toFixed1 (quotient sum (length rs)))
  | _ => JNumber 0
  end.






End Rating.

(** ** External capabilities *)

Definition ObjectId := nat.
Bind Scope nat_scope with ObjectId.

(** bcryptjs: [hash] builds a term, [compare] recognises the hash of
    the entered text and nothing else. *)
Module Bcrypt.

Inductive Password :=
| Plain (text : string)
| Hash (input : Password) (salt : nat).

Definition length (p : Password) : nat :=
  match p with
  | Plain text => String.length text
  | Hash _ _ => 60
  end.

Definition compare (entered : string) (stored : Password) : bool :=
  match stored with
  | Hash (Plain text) _ => Str.eqb text entered
  | _ => false
  end.

End Bcrypt.

(** jsonwebtoken: a token is malformed, or carries an account id
    together with whether it was signed with [JWT_SECRET] and whether it
    is past its expiry at the time of the request. *)
Module Jwt.

Inductive Token :=
| Malformed
| Signed (id : ObjectId) (with_secret : bool) (expired : bool).

(** [generateToken] of controllers/authController.js *)
Definition generateToken (id : ObjectId) : Token := Signed id true false.

(** [jwt.verify]: [None] stands for the exception it throws. *)
Definition verify (t : Token) : option ObjectId :=
  match t with
  | Signed id true false => Some id
  | _ => None
  end.

End Jwt.

(** ** Documents (models/) *)

Inductive Role := student | instructor | admin.

Global Instance Role_eq_dec : EqDecision Role.
Proof. solve_decision. Defined.

Definition role_of_string (s : string) : option Role :=
  if Str.eqb s "student" then Some student
  else if Str.eqb s "instructor" then Some instructor
  else if Str.eqb s "admin" then Some admin
  else None.

Module User.
Record t := mk {
  email : string;
  password : Bcrypt.Password;
  role : Role;
  profile : option ObjectId;
  enrolledCourses : list ObjectId }.

Definition set_email (v : string) (u : t) : t :=
  mk v (password u) (role u) (profile u) (enrolledCourses u).
Definition set_password (v : Bcrypt.Password) (u : t) : t :=
  mk (email u) v (role u) (profile u) (enrolledCourses u).
Definition set_role (v : Role) (u : t) : t :=
  mk (email u) (password u) v (profile u) (enrolledCourses u).
Definition set_profile (v : option ObjectId) (u : t) : t :=
  mk (email u) (password u) (role u) v (enrolledCourses u).
Definition set_enrolledCourses (v : list ObjectId) (u : t) : t :=
  mk (email u) (password u) (role u) (profile u) v.
End User.

Module Profile.
Record t := mk {
  user : ObjectId;
  firstName : string;
  lastName : string;
  bio : string;
  avatar : string;
  phone : string;
  address : string }.
End Profile.

Module Course.
Record t := mk {
  title : string;
  description : string;
  price : Z;
  image : string;
  level : string;
  duration : Z;
  instructor : ObjectId;
  categories : list ObjectId;
  enrolledStudents : list ObjectId;
  isPublished : bool }.

Definition set_categories (v : list ObjectId) (c : t) : t :=
  mk (title c) (description c) (price c) (image c) (level c) (duration c)
     (instructor c) v (enrolledStudents c) (isPublished c).
Definition set_enrolledStudents (v : list ObjectId) (c : t) : t :=
  mk (title c) (description c) (price c) (image c) (level c) (duration c)
     (instructor c) (categories c) v (isPublished c).
End Course.

Module Category.
Record t := mk {
  name : string;
  description : string;
  courses : list ObjectId }.

Definition set_courses (v : list ObjectId) (k : t) : t :=
  mk (name k) (description k) v.
End Category.

Module Review.
Record t := mk {
  rating : Z;
  comment : string;
  user : ObjectId;
  course : ObjectId }.
End Review.

(** ** The database *)

Module Db.
Record t := mk {
  users : gmap ObjectId User.t;
  profiles : gmap ObjectId Profile.t;
  courses : gmap ObjectId Course.t;
  categories : gmap ObjectId Category.t;
  reviews : gmap ObjectId Review.t }.

Definition empty : t := mk ∅ ∅ ∅ ∅ ∅.

Definition with_users (f : gmap ObjectId User.t → gmap ObjectId User.t) (db : t) : t :=
  mk (f (users db)) (profiles db) (courses db) (categories db) (reviews db).
Definition with_profiles (f : gmap ObjectId Profile.t → gmap ObjectId Profile.t) (db : t) : t :=
  mk (users db) (f (profiles db)) (courses db) (categories db) (reviews db).
Definition with_courses (f : gmap ObjectId Course.t → gmap ObjectId Course.t) (db : t) : t :=
  mk (users db) (profiles db) (f (courses db)) (categories db) (reviews db).
Definition with_categories (f : gmap ObjectId Category.t → gmap ObjectId Category.t) (db : t) : t :=
  mk (users db) (profiles db) (courses db) (f (categories db)) (reviews db).
Definition with_reviews (f : gmap ObjectId Review.t → gmap ObjectId Review.t) (db : t) : t :=
  mk (users db) (profiles db) (courses db) (categories db) (f (reviews db)).
End Db.

(** MongoDB array operators. *)
Definition addToSet (x : ObjectId) (l : list ObjectId) : list ObjectId :=
  if bool_decide (x ∈ l) then l else l ++ [x].

Definition pull (x : ObjectId) (l : list ObjectId) : list ObjectId :=
  filter (λ y, y ≠ x) l.

(** ** Exceptions and the handler monad *)

Inductive JsError :=
| Error (message : string)
| TypeError
| ValidationError (messages : list string)
| DuplicateKey (field : string).

(** A thrown error together with [res.statusCode] at the time. *)
Record Thrown := mkThrown { thrown_status : Z; thrown_error : JsError }.

Definition M (A : Type) : Type := Db.t → Db.t * (Thrown + A).

Global Instance M_ret : MRet M := λ A a db, (db, inr a).
Global Instance M_bind : MBind M := λ A B f m db,
  match m db with
  | (db', inl e) => (db', inl e)
  | (db', inr a) => f a db'
  end.

Definition throw {A} (status : Z) (e : JsError) : M A :=
  λ db, (db, inl (mkThrown status e)).
Definition read : M Db.t := λ db, (db, inr db).
Definition write (f : Db.t → Db.t) : M unit := λ db, (f db, inr tt).

(** Checks of a schema: the list of messages of the failed validators. *)
Definition check (ok : bool) (message : string) : list string :=
  if ok then [] else [message].

Definition validated (errors : list string) : M unit :=
  match errors with
  | [] => mret tt
  | _ => throw 200 (ValidationError errors)
  end.

(** Values the server draws while it serves one request. *)
Record Gen := mkGen {
  oid : ObjectId;      (* the ObjectId of the first document created *)
  oid2 : ObjectId;     (* the ObjectId of the second one (the profile) *)
  salt : nat }.        (* bcrypt.genSalt(10) *)

(** [find] over a collection, first match. *)
Definition find_doc {A} (P : ObjectId → A → bool) (m : gmap ObjectId A)
  : option (ObjectId * A) :=
  List.find (λ d, P d.1 d.2) (map_to_list m).

(** ** models/User.js *)

Module UserModel.

Definition normalize_email (e : string) : string := Str.toLowerCase (Str.trim e).

(** The text after an [@] matches [\S+\.\S]: [seen] tells that one
    [\S] was read already. *)
Fixpoint match_domain (seen : bool) (s : string) : bool :=
  match s with
  | EmptyString => false
  | String c r =>
      if Str.is_space c then false
      else (seen && bool_decide (c = "."%char)
            && match r with String d _ => negb (Str.is_space d) | EmptyString => false end)
           || match_domain true r
  end.

(** [/\S+@\S+\.\S+/.test(s)]; [prev] tells that the previous
    character is [\S]. *)
Fixpoint match_from (prev : bool) (s : string) : bool :=
  match s with
  | EmptyString => false
  | String c r =>
      (prev && bool_decide (c = "@"%char) && match_domain false r)
      || match_from (negb (Str.is_space c)) r
  end.

Definition email_match (s : string) : bool := match_from false s.

Definition check_email (e : string) : list string :=
  if Str.eqb e "" then ["L'email est requis"]
  else check (email_match e) "Format d'email invalide".

Definition check_password (p : Bcrypt.Password) : list string :=
  if bool_decide (Bcrypt.length p = 0%nat) then ["Le mot de passe est requis"]
  else check (bool_decide (6 ≤ Bcrypt.length p)%nat)
             "Le mot de passe doit contenir au moins 6 caractères".

Definition check_role (r : string) : list string :=
  check (bool_decide (is_Some (role_of_string r)))
        "role: valeur non autorisée".

(** Handing over to the rest of the save pipeline: the hook's code
    goes on after the call. *)
Definition next (this : User.t) : User.t := this.

(** [userSchema.pre('save', ...)] *)
Definition pre_save (isModified_password : bool) (salt : nat) (this : User.t) : User.t :=
  let this := if negb isModified_password then next this else this in
  User.set_password (Bcrypt.Hash (User.password this) salt) this.


(** The unique index on [email]. *)
Definition email_in_use (users : gmap ObjectId User.t) (except : ObjectId) (e : string)
  : bool :=
  bool_decide (map_Exists (λ i u, i ≠ except ∧ User.email u = e) users).

Definition findById (id : ObjectId) : M (option User.t) :=
  db ← read; mret (Db.users db !! id).

(** [User.findOne({ email })]: the filter goes through the setters of
    the path. *)
Definition findOne_email (e : string) : M (option (ObjectId * User.t)) :=
  db ← read;
  mret (find_doc (λ _ u, Str.eqb (User.email u) (normalize_email e)) (Db.users db)).

(** Writing a validated document: the unique indexes are checked. *)
Definition store (isNew : bool) (id : ObjectId) (doc : User.t) : M unit :=
  db ← read;
  if isNew && bool_decide (is_Some (Db.users db !! id)) then throw 200 (DuplicateKey "_id")
  else if email_in_use (Db.users db) id (User.email doc) then throw 200 (DuplicateKey "email")
  else write (Db.with_users <[id := doc]>).

(** [User.create({ email, password, role })] *)
Definition create (g : Gen) (email password role : string) : M (ObjectId * User.t) :=
  let email := normalize_email email in
  validated (check_email email ++ check_password (Bcrypt.Plain password)
             ++ check_role role);;
  let doc := User.mk email (Bcrypt.Plain password)
                     (default student (role_of_string role)) None [] in
  let doc := pre_save true (salt g) doc in
  store true (oid g) doc;;
  mret (oid g, doc).

(** [user.save()] of a loaded document: the paths that were assigned
    are validated, the hook runs to its end, the document it leaves is
    written. *)
Definition save (g : Gen) (id : ObjectId) (doc : User.t) (email_assigned : bool)
    (role_assigned : option string) : M User.t :=
  validated ((if email_assigned then check_email (User.email doc) else [])
             ++ from_option check_role [] role_assigned);;
  let doc := pre_save false (salt g) doc in
  store false id doc;;
  mret doc.

Definition findByIdAndUpdate (id : ObjectId) (f : User.t → User.t) : M unit :=
  write (Db.with_users (λ m, alter f id m)).

Definition findByIdAndDelete (id : ObjectId) : M unit :=
  write (Db.with_users (delete id)).

(** [User.updateMany({ enrolledCourses: c }, { $pull: { enrolledCourses: c } })] *)
Definition updateMany_pull_course (c : ObjectId) : M unit :=
  write (Db.with_users (fmap (λ u,
    if bool_decide (c ∈ User.enrolledCourses u)
    then User.set_enrolledCourses (pull c (User.enrolledCourses u)) u else u))).

(** [matchPassword] *)
Definition matchPassword (this : User.t) (enteredPassword : string) : bool :=
  Bcrypt.compare enteredPassword (User.password this).

End UserModel.

(** ** models/Profile.js *)

Module ProfileModel.

Definition check_name (required too_long v : string) : list string :=
  if Str.eqb v "" then [required]
  else check (bool_decide (String.length v ≤ 50)%nat) too_long.

Definition check_firstName (v : string) : list string :=
  check_name "Le prénom est requis" "Le prénom ne peut pas dépasser 50 caractères" v.
Definition check_lastName (v : string) : list string :=
  check_name "Le nom est requis" "Le nom ne peut pas dépasser 50 caractères" v.
Definition check_bio (v : string) : list string :=
  check (bool_decide (String.length v ≤ 500)%nat)
        "La bio ne peut pas dépasser 500 caractères".

Definition findOne_user (u : ObjectId) : M (option (ObjectId * Profile.t)) :=
  db ← read;
  mret (find_doc (λ _ p, bool_decide (Profile.user p = u)) (Db.profiles db)).

(** The unique index on [user]. *)
Definition store (isNew : bool) (id : ObjectId) (doc : Profile.t) : M unit :=
  db ← read;
  if isNew && bool_decide (is_Some (Db.profiles db !! id)) then throw 200 (DuplicateKey "_id")
  else if bool_decide (map_Exists (λ i p, i ≠ id ∧ Profile.user p = Profile.user doc)
                                  (Db.profiles db))
  then throw 200 (DuplicateKey "user")
  else write (Db.with_profiles <[id := doc]>).

(** [Profile.create({ user, firstName, lastName })] *)
Definition create (id user : ObjectId) (firstName lastName : option string)
  : M (ObjectId * Profile.t) :=
  let firstName := Str.trim (default "" firstName) in
  let lastName := Str.trim (default "" lastName) in
  validated (check_firstName firstName ++ check_lastName lastName);;
  let doc := Profile.mk user firstName lastName "" "" "" "" in
  store true id doc;;
  mret (id, doc).

End ProfileModel.

(** ** models/Course.js *)

Module CourseModel.

Definition levels : list string := ["débutant"; "intermédiaire"; "avancé"].

Definition check_title (v : string) : list string :=
  if Str.eqb v "" then ["Le titre du cours est requis"]
  else check (bool_decide (String.length v ≤ 100)%nat)
             "Le titre ne peut pas dépasser 100 caractères".

Definition check_description (v : string) : list string :=
  if Str.eqb v "" then ["La description est requise"]
  else check (bool_decide (String.length v ≤ 2000)%nat)
             "La description ne peut pas dépasser 2000 caractères".

Definition check_price (v : option Z) : list string :=
  match v with
  | None => ["Le prix est requis"]
  | Some p => check (bool_decide (0 ≤ p)) "Le prix ne peut pas être négatif"
  end.

Definition check_level (v : string) : list string :=
  check (bool_decide (v ∈ levels)) "level: valeur non autorisée".

Definition findById (id : ObjectId) : M (option Course.t) :=
  db ← read; mret (Db.courses db !! id).

(** [Course.create({...})] *)
Definition create (id : ObjectId) (title description : option string) (price : option Z)
    (image level : option string) (duration : option Z) (categories : list ObjectId)
    (instructor : ObjectId) (isPublished : bool) : M (ObjectId * Course.t) :=
  let title := Str.trim (default "" title) in
  let description := default "" description in
  let level := default "débutant" level in
  validated (check_title title ++ check_description description
             ++ check_price price ++ check_level level);;
  let doc := Course.mk title description (default 0 price) (default "" image) level
                       (default 0 duration) instructor categories [] isPublished in
  db ← read;
  if bool_decide (is_Some (Db.courses db !! id)) then throw 200 (DuplicateKey "_id")
  else write (Db.with_courses <[id := doc]>);;
  mret (id, doc).

(** [course.save()] of a loaded document; [assigned] lists the checks
    of the paths that were assigned. *)
Definition save (id : ObjectId) (doc : Course.t) (assigned : list string) : M Course.t :=
  validated assigned;;
  write (Db.with_courses <[id := doc]>);;
  mret doc.

Definition findByIdAndDelete (id : ObjectId) : M unit :=
  write (Db.with_courses (delete id)).

End CourseModel.

(** ** models/Category.js *)

Module CategoryModel.

Definition check_name (v : string) : list string :=
  if Str.eqb v "" then ["Le nom de la catégorie est requis"]
  else check (bool_decide (String.length v ≤ 50)%nat)
             "Le nom ne peut pas dépasser 50 caractères".

Definition check_description (v : string) : list string :=
  check (bool_decide (String.length v ≤ 200)%nat)
        "La description ne peut pas dépasser 200 caractères".

Definition findById (id : ObjectId) : M (option Category.t) :=
  db ← read; mret (Db.categories db !! id).

(** [Category.findOne({ name })]; an undefined [name] leaves the
    filter empty. *)
Definition findOne_name (name : option string) : M (option (ObjectId * Category.t)) :=
  db ← read;
  mret (find_doc (λ _ k, match name with
                         | Some n => Str.eqb (Category.name k) (Str.trim n)
                         | None => true
                         end) (Db.categories db)).

(** The unique index on [name]. *)
Definition store (isNew : bool) (id : ObjectId) (doc : Category.t) : M unit :=
  db ← read;
  if isNew && bool_decide (is_Some (Db.categories db !! id)) then throw 200 (DuplicateKey "_id")
  else if bool_decide (map_Exists (λ i k, i ≠ id ∧ Category.name k = Category.name doc)
                                  (Db.categories db))
  then throw 200 (DuplicateKey "name")
  else write (Db.with_categories <[id := doc]>).

(** [Category.create({ name, description })] *)
Definition create (id : ObjectId) (name description : option string)
  : M (ObjectId * Category.t) :=
  let name := Str.trim (default "" name) in
  let description := default "" description in
  validated (check_name name ++ check_description description);;
  let doc := Category.mk name description [] in
  store true id doc;;
  mret (id, doc).

Definition save (id : ObjectId) (doc : Category.t) (assigned : list string) : M Category.t :=
  validated assigned;;
  store false id doc;;
  mret doc.

Definition findByIdAndDelete (id : ObjectId) : M unit :=
  write (Db.with_categories (delete id)).

(** [Category.updateMany({ courses: c }, { $pull: { courses: c } })] *)
Definition updateMany_pull (c : ObjectId) : M unit :=
  write (Db.with_categories (fmap (λ k,
    if bool_decide (c ∈ Category.courses k)
    then Category.set_courses (pull c (Category.courses k)) k else k))).

(** [Category.updateMany({ _id: { $in: ids } }, { $addToSet: { courses: c } })] *)
Definition updateMany_addToSet (ids : list ObjectId) (c : ObjectId) : M unit :=
  write (Db.with_categories (map_imap (λ i k,
    Some (if bool_decide (i ∈ ids)
          then Category.set_courses (addToSet c (Category.courses k)) k else k)))).

End CategoryModel.

(** ** models/Review.js *)

Module ReviewModel.

Definition check_rating (v : option Z) : list string :=
  match v with
  | None => ["La note est requise"]
  | Some r => if bool_decide (1 ≤ r) then check (bool_decide (r ≤ 5)) "La note maximum est 5"
              else ["La note minimum est 1"]
  end.

Definition check_comment (v : string) : list string :=
  if Str.eqb v "" then ["Le commentaire est requis"]
  else check (bool_decide (String.length v ≤ 1000)%nat)
             "Le commentaire ne peut pas dépasser 1000 caractères".

Definition findById (id : ObjectId) : M (option Review.t) :=
  db ← read; mret (Db.reviews db !! id).

Definition findOne_user_course (u c : ObjectId) : M (option (ObjectId * Review.t)) :=
  db ← read;
  mret (find_doc (λ _ r, bool_decide (Review.user r = u) && bool_decide (Review.course r = c))
                 (Db.reviews db)).

(** The unique index on [(course, user)]. *)
Definition store (isNew : bool) (id : ObjectId) (doc : Review.t) : M unit :=
  db ← read;
  if isNew && bool_decide (is_Some (Db.reviews db !! id)) then throw 200 (DuplicateKey "_id")
  else if bool_decide (map_Exists (λ i r, i ≠ id ∧ Review.course r = Review.course doc
                                          ∧ Review.user r = Review.user doc) (Db.reviews db))
  then throw 200 (DuplicateKey "course")
  else write (Db.with_reviews <[id := doc]>).

Definition create (id : ObjectId) (rating : option Z) (comment : option string)
    (user course : ObjectId) : M (ObjectId * Review.t) :=
  let comment := default "" comment in
  validated (check_rating rating ++ check_comment comment);;
  let doc := Review.mk (default 0 rating) comment user course in
  store true id doc;;
  mret (id, doc).

Definition save (id : ObjectId) (doc : Review.t) (assigned : list string) : M Review.t :=
  validated assigned;;
  store false id doc;;
  mret doc.

Definition findByIdAndDelete (id : ObjectId) : M unit :=
  write (Db.with_reviews (delete id)).

(** The ratings of the reviews of a course: the populated virtual
    [reviews] of models/Course.js. *)
Definition ratings_of (db : Db.t) (course : ObjectId) : list Z :=
  Review.rating <$> (map_to_list (filter (λ d, Review.course d.2 = course) (Db.reviews db))).*2.

End ReviewModel.

(** ** Requests and responses *)

(** [req.user]: the account loaded by [protect], password excluded. *)
Module ReqUser.
Record t := mk {
  _id : ObjectId;
  email : string;
  role : Role;
  profile : option ObjectId;
  enrolledCourses : list ObjectId }.

Definition select_minus_password (id : ObjectId) (u : User.t) : t :=
  mk id (User.email u) (User.role u) (User.profile u) (User.enrolledCourses u).
End ReqUser.

Module RegisterBody.
Record t := mk {
  email : string;
  password : string;
  firstName : option string;
  lastName : option string;
  role : option string }.
End RegisterBody.

Module UserBody.
Record t := mk { email : option string; role : option string }.
End UserBody.

Module ProfileBody.
Record t := mk {
  firstName : option string;
  lastName : option string;
  bio : option string;
  avatar : option string;
  phone : option string;
  address : option string }.
End ProfileBody.

Module CourseBody.
Record t := mk {
  title : option string;
  description : option string;
  price : option Z;
  image : option string;
  level : option string;
  duration : option Z;
  categories : option (list ObjectId);
  isPublished : option bool;
  instructor : option ObjectId }.   (* sent by a client, read by no handler *)

Definition set_instructor (v : option ObjectId) (b : t) : t :=
  mk (title b) (description b) (price b) (image b) (level b) (duration b)
     (categories b) (isPublished b) v.
End CourseBody.

Module ReviewBody.
Record t := mk { rating : option Z; comment : option string; courseId : ObjectId }.
End ReviewBody.

Module CategoryBody.
Record t := mk { name : option string; description : option string }.
End CategoryBody.

Inductive Authorization :=
| OtherScheme                     (* a header that does not start with Bearer *)
| Bearer (token : Jwt.Token).

Inductive Endpoint :=
| PostRegister (b : RegisterBody.t)
| PostLogin (email password : string)
| GetMe
| PostLogout
| GetUsers
| GetUser (id : ObjectId)
| PutUser (id : ObjectId) (b : UserBody.t)
| DeleteUser (id : ObjectId)
| GetProfiles
| GetProfile (userId : ObjectId)
| PutProfile (userId : ObjectId) (b : ProfileBody.t)
| GetCourses
| GetCourse (id : ObjectId)
| GetCoursesByInstructor (instructorId : ObjectId)
| PostCourse (b : CourseBody.t)
| PutCourse (id : ObjectId) (b : CourseBody.t)
| DeleteCourse (id : ObjectId)
| PostEnroll (id : ObjectId)
| DeleteEnroll (id : ObjectId)
| GetReviewsByCourse (courseId : ObjectId)
| GetReviewsByUser (userId : ObjectId)
| PostReview (b : ReviewBody.t)
| PutReview (id : ObjectId) (b : ReviewBody.t)
| DeleteReview (id : ObjectId)
| GetCategories
| GetCategory (id : ObjectId)
| PostCategory (b : CategoryBody.t)
| PutCategory (id : ObjectId) (b : CategoryBody.t)
| DeleteCategory (id : ObjectId).

Record Request := mkRequest {
  authorization : option Authorization;
  endpoint : Endpoint }.

(** The payload of [res.json]; [populate] and field selection are left
    out, a document is sent as it is stored. *)
Inductive Json :=
| Message (message : string)
| MessageId (message : string) (id : ObjectId)
| AuthInfo (_id : ObjectId) (email : string) (role : Role)
           (profile : option (ObjectId * Profile.t)) (token : Jwt.Token)
| UserInfo (_id : ObjectId) (email : string) (role : Role)
| Users (docs : list ReqUser.t)
| Profiles (docs : list (ObjectId * Profile.t))
| Courses (docs : list (ObjectId * Course.t * Rating.JsValue))   (* with [averageRating] *)
| Categories (docs : list (ObjectId * Category.t))
| Reviews (docs : list (ObjectId * Review.t)).

Record Response := mkResponse { status : Z; body : Json }.

(** ** middleware/errorMiddleware.js *)

Definition error_message (e : JsError) : string :=
  match e with
  | Error message => message
  | TypeError => "Cannot read properties of null"
  | ValidationError messages => String.concat ", " messages
  | DuplicateKey field => "Duplication détectée: " +:+ field +:+ " existe déjà"
  end.

(** The [CastError] case is left out: no identifier is malformed here. *)
Definition errorHandler (t : Thrown) : Response :=
  let statusCode := if bool_decide (thrown_status t = 200) then 500
                    else thrown_status t in
  let statusCode := match thrown_error t with
                    | ValidationError _ | DuplicateKey _ => 400
                    | _ => statusCode
                    end in
  mkResponse statusCode (Message (error_message (thrown_error t))).

(** ** middleware/authMiddleware.js *)

(** [protect]: the value left in [req.user] for the handlers that
    follow; [None] is the [null] that [findById] gives when the account
    of a verified token is gone. *)
Definition protect (authorization : option Authorization) : M (option ReqUser.t) :=
  match authorization with
  | Some (Bearer token) =>
      match Jwt.verify token with
      | Some id =>
          db ← read;
          mret (ReqUser.select_minus_password id <$> Db.users db !! id)
      | None => throw 401 (Error "Non autorisé, token invalide")
      end
  | _ => throw 401 (Error "Non autorisé, pas de token")
  end.

(** Reading a property of [req.user]. *)
Definition deref (req_user : option ReqUser.t) : M ReqUser.t :=
  match req_user with
  | Some u => mret u
  | None => throw 200 TypeError
  end.

(** [authorize(...roles)] *)
Definition authorize (roles : list Role) (req_user : option ReqUser.t) : M unit :=
  u ← deref req_user;
  if bool_decide (ReqUser.role u ∈ roles) then mret tt
  else throw 403 (Error "Ce rôle n'est pas autorisé à accéder à cette ressource").

(** [x || d] on an optional string. *)
Definition or_default (x : option string) (d : string) : string :=
  if Str.falsy x then d else default d x.

(** ** controllers/authController.js *)

Module AuthController.

Definition register (g : Gen) (b : RegisterBody.t) : M (Z * Json) :=
  userExists ← UserModel.findOne_email (RegisterBody.email b);
  match userExists with
  | Some _ => throw 400 (Error "Cet email est déjà utilisé")
  | None =>
      '(uid, user) ← UserModel.create g (RegisterBody.email b) (RegisterBody.password b)
                        (or_default (RegisterBody.role b) "student");
      (* if (user): a created document is never falsy *)
      if Str.falsy (RegisterBody.firstName b) || Str.falsy (RegisterBody.lastName b)
      then throw 400 (Error "Le prénom et le nom sont requis")
      else
        '(pid, profile) ← ProfileModel.create (oid2 g) uid (RegisterBody.firstName b)
                             (RegisterBody.lastName b);
        UserModel.findByIdAndUpdate uid (User.set_profile (Some pid));;
        mret (201, AuthInfo uid (User.email user) (User.role user) (Some (pid, profile))
                            (Jwt.generateToken uid))
  end.

Definition login (email password : string) : M (Z * Json) :=
  user ← UserModel.findOne_email email;
  match user with
  | Some (id, u) =>
      if UserModel.matchPassword u password then
        db ← read;
        mret (200, AuthInfo id (User.email u) (User.role u)
                     (pid ← User.profile u; p ← Db.profiles db !! pid; Some (pid, p))
                     (Jwt.generateToken id))
      else throw 401 (Error "Email ou mot de passe incorrect")
  | None => throw 401 (Error "Email ou mot de passe incorrect")
  end.

Definition getMe (req_user : option ReqUser.t) : M (Z * Json) :=
  u ← deref req_user;
  user ← UserModel.findById (ReqUser._id u);
  mret (200, Users (option_list (ReqUser.select_minus_password (ReqUser._id u) <$> user))).

Definition logout : M (Z * Json) :=
  mret (200, Message "Déconnexion réussie").

End AuthController.

(** ** controllers/userController.js *)

Module UserController.

Definition getAllUsers : M (Z * Json) :=
  db ← read;
  mret (200, Users ((λ d, ReqUser.select_minus_password d.1 d.2) <$> map_to_list (Db.users db))).

Definition getUserById (id : ObjectId) : M (Z * Json) :=
  user ← UserModel.findById id;
  match user with
  | Some u => mret (200, Users [ReqUser.select_minus_password id u])
  | None => throw 404 (Error "Utilisateur non trouvé")
  end.

(** [if (email) user.email = email;
     if (role && req.user.role === 'admin') user.role = role;] *)
Definition role_assigned (me : ReqUser.t) (b : UserBody.t) : option string :=
  if negb (Str.falsy (UserBody.role b)) && bool_decide (ReqUser.role me = admin)
  then UserBody.role b else None.

Definition assign (me : ReqUser.t) (b : UserBody.t) (user : User.t) : User.t :=
  let user := if Str.falsy (UserBody.email b) then user
              else User.set_email (UserModel.normalize_email (default "" (UserBody.email b)))
                                  user in
  match role_assigned me b ≫= role_of_string with
  | Some r => User.set_role r user
  | None => user
  end.

Definition updateUser (g : Gen) (req_user : option ReqUser.t) (id : ObjectId)
    (b : UserBody.t) : M (Z * Json) :=
  user ← UserModel.findById id;
  match user with
  | None => throw 404 (Error "Utilisateur non trouvé")
  | Some user =>
      me ← deref req_user;
      if bool_decide (ReqUser._id me ≠ id) && bool_decide (ReqUser.role me ≠ admin)
      then throw 403 (Error "Non autorisé à modifier cet utilisateur")
      else
        updatedUser ← UserModel.save g id (assign me b user)
                        (negb (Str.falsy (UserBody.email b))) (role_assigned me b);
        mret (200, UserInfo id (User.email updatedUser) (User.role updatedUser))
  end.

Definition deleteUser (id : ObjectId) : M (Z * Json) :=
  user ← UserModel.findById id;
  match user with
  | None => throw 404 (Error "Utilisateur non trouvé")
  | Some _ =>
      UserModel.findByIdAndDelete id;;
      mret (200, MessageId "Utilisateur supprimé avec succès" id)
  end.

End UserController.

(** ** controllers/profileController.js *)

Module ProfileController.

Definition getProfile (userId : ObjectId) : M (Z * Json) :=
  profile ← ProfileModel.findOne_user userId;
  match profile with
  | Some p => mret (200, Profiles [p])
  | None => throw 404 (Error "Profil non trouvé")
  end.

Definition getAllProfiles : M (Z * Json) :=
  db ← read; mret (200, Profiles (map_to_list (Db.profiles db))).

(** [if (firstName) profile.firstName = firstName; ...
     if (bio !== undefined) profile.bio = bio; ...] *)
Definition assign (b : ProfileBody.t) (p : Profile.t) : Profile.t :=
  Profile.mk (Profile.user p)
    (if Str.falsy (ProfileBody.firstName b) then Profile.firstName p
     else Str.trim (default "" (ProfileBody.firstName b)))
    (if Str.falsy (ProfileBody.lastName b) then Profile.lastName p
     else Str.trim (default "" (ProfileBody.lastName b)))
    (default (Profile.bio p) (ProfileBody.bio b))
    (default (Profile.avatar p) (ProfileBody.avatar b))
    (default (Profile.phone p) (ProfileBody.phone b))
    (default (Profile.address p) (ProfileBody.address b)).

(** The validators of the paths that were assigned. *)
Definition assigned_checks (b : ProfileBody.t) (p : Profile.t) : list string :=
  (if Str.falsy (ProfileBody.firstName b) then []
   else ProfileModel.check_firstName (Profile.firstName p))
  ++ (if Str.falsy (ProfileBody.lastName b) then []
      else ProfileModel.check_lastName (Profile.lastName p))
  ++ from_option ProfileModel.check_bio [] (ProfileBody.bio b).

Definition updateProfile (req_user : option ReqUser.t) (userId : ObjectId)
    (b : ProfileBody.t) : M (Z * Json) :=
  me ← deref req_user;
  if bool_decide (ReqUser._id me ≠ userId) && bool_decide (ReqUser.role me ≠ admin)
  then throw 403 (Error "Non autorisé à modifier ce profil")
  else
    profile ← ProfileModel.findOne_user userId;
    match profile with
    | None => throw 404 (Error "Profil non trouvé")
    | Some (pid, p) =>
        let doc := assign b p in
        validated (assigned_checks b doc);;
        ProfileModel.store false pid doc;;
        mret (200, Profiles [(pid, doc)])
    end.

End ProfileController.

(** ** controllers/courseController.js *)

Module CourseController.

(** A course as sent: the virtual [averageRating] is computed from
    [reviews], which is there only when it was populated. *)
Definition view (reviews : option (list Z)) (id : ObjectId) (c : Course.t)
  : ObjectId * Course.t * Rating.JsValue :=
  (id, c, Rating.averageRating reviews).

Definition getAllCourses : M (Z * Json) :=
  db ← read;
  mret (200, Courses ((λ d, view (Some (ReviewModel.ratings_of db d.1)) d.1 d.2)
                      <$> map_to_list (filter (λ d, Course.isPublished d.2 = true)
                                              (Db.courses db)))).

Definition getCourseById (id : ObjectId) : M (Z * Json) :=
  db ← read;
  match Db.courses db !! id with
  | None => throw 404 (Error "Cours non trouvé")
  | Some c => mret (200, Courses [view (Some (ReviewModel.ratings_of db id)) id c])
  end.

Definition getCoursesByInstructor (instructorId : ObjectId) : M (Z * Json) :=
  db ← read;
  mret (200, Courses ((λ d, view None d.1 d.2)
                      <$> map_to_list (filter (λ d, Course.instructor d.2 = instructorId)
                                              (Db.courses db)))).

Definition createCourse (g : Gen) (req_user : option ReqUser.t) (b : CourseBody.t)
  : M (Z * Json) :=
  let categories := CourseBody.categories b in
  me ← deref req_user;
  '(id, _) ← CourseModel.create (oid g) (CourseBody.title b) (CourseBody.description b)
               (CourseBody.price b) (CourseBody.image b) (CourseBody.level b)
               (CourseBody.duration b)
               (default [] categories)               (* categories || [] *)
               (ReqUser._id me)                      (* instructor: req.user._id *)
               (default false (CourseBody.isPublished b));
  (* if (categories && categories.length > 0) *)
  match categories with
  | Some (_ :: _) => CategoryModel.updateMany_addToSet (default [] categories) id
  | _ => mret tt
  end;;
  populatedCourse ← CourseModel.findById id;
  mret (201, Courses (option_list (view None id <$> populatedCourse))).

(** [if (title) course.title = title; ...
     if (price !== undefined) course.price = price; ...] *)
Definition assign (b : CourseBody.t) (course : Course.t) : Course.t :=
  Course.mk
    (if Str.falsy (CourseBody.title b) then Course.title course
     else Str.trim (default "" (CourseBody.title b)))
    (or_default (CourseBody.description b) (Course.description course))
    (default (Course.price course) (CourseBody.price b))
    (default (Course.image course) (CourseBody.image b))
    (or_default (CourseBody.level b) (Course.level course))
    (default (Course.duration course) (CourseBody.duration b))
    (Course.instructor course) (Course.categories course)
    (Course.enrolledStudents course)
    (default (Course.isPublished course) (CourseBody.isPublished b)).

(** The validators of the paths that were assigned. *)
Definition assigned_checks (b : CourseBody.t) (course : Course.t) : list string :=
  (if Str.falsy (CourseBody.title b) then []
   else CourseModel.check_title (Course.title course))
  ++ (if Str.falsy (CourseBody.description b) then []
      else CourseModel.check_description (Course.description course))
  ++ (if CourseBody.price b is Some _ then CourseModel.check_price (CourseBody.price b)
      else [])
  ++ (if Str.falsy (CourseBody.level b) then []
      else CourseModel.check_level (Course.level course)).

Definition updateCourse (req_user : option ReqUser.t) (id : ObjectId) (b : CourseBody.t)
  : M (Z * Json) :=
  course ← CourseModel.findById id;
  match course with
  | None => throw 404 (Error "Cours non trouvé")
  | Some course =>
      me ← deref req_user;
      if bool_decide (Course.instructor course ≠ ReqUser._id me)
         && bool_decide (ReqUser.role me ≠ admin)
      then throw 403 (Error "Non autorisé à modifier ce cours")
      else
        let course := assign b course in
        (* if (categories) { ... } *)
        course ← match CourseBody.categories b with
                 | Some categories =>
                     CategoryModel.updateMany_pull id;;
                     CategoryModel.updateMany_addToSet categories id;;
                     mret (Course.set_categories categories course)
                 | None => mret course
                 end;
        CourseModel.save id course (assigned_checks b course);;
        populatedCourse ← CourseModel.findById id;
        mret (200, Courses (option_list (view None id <$> populatedCourse)))
  end.

Definition deleteCourse (req_user : option ReqUser.t) (id : ObjectId) : M (Z * Json) :=
  course ← CourseModel.findById id;
  match course with
  | None => throw 404 (Error "Cours non trouvé")
  | Some course =>
      me ← deref req_user;
      if bool_decide (Course.instructor course ≠ ReqUser._id me)
         && bool_decide (ReqUser.role me ≠ admin)
      then throw 403 (Error "Non autorisé à supprimer ce cours")
      else
        CategoryModel.updateMany_pull id;;
        UserModel.updateMany_pull_course id;;
        CourseModel.findByIdAndDelete id;;
        mret (200, MessageId "Cours supprimé avec succès" id)
  end.

Definition enrollInCourse (req_user : option ReqUser.t) (id : ObjectId) : M (Z * Json) :=
  course ← CourseModel.findById id;
  match course with
  | None => throw 404 (Error "Cours non trouvé")
  | Some course =>
      me ← deref req_user;
      if bool_decide (ReqUser._id me ∈ Course.enrolledStudents course)
      then throw 400 (Error "Vous êtes déjà inscrit à ce cours")
      else
        (* course.enrolledStudents.push(req.user._id) *)
        let course := Course.set_enrolledStudents
                        (Course.enrolledStudents course ++ [ReqUser._id me]) course in
        CourseModel.save id course [];;
        UserModel.findByIdAndUpdate (ReqUser._id me)
          (λ u, User.set_enrolledCourses (addToSet id (User.enrolledCourses u)) u);;
        mret (200, MessageId "Inscription réussie" id)
  end.

Definition unenrollFromCourse (req_user : option ReqUser.t) (id : ObjectId) : M (Z * Json) :=
  course ← CourseModel.findById id;
  match course with
  | None => throw 404 (Error "Cours non trouvé")
  | Some course =>
      me ← deref req_user;
      if negb (bool_decide (ReqUser._id me ∈ Course.enrolledStudents course))
      then throw 400 (Error "Vous n'êtes pas inscrit à ce cours")
      else
        let course := Course.set_enrolledStudents
                        (filter (λ i, i ≠ ReqUser._id me) (Course.enrolledStudents course))
                        course in
        CourseModel.save id course [];;
        UserModel.findByIdAndUpdate (ReqUser._id me)
          (λ u, User.set_enrolledCourses (pull id (User.enrolledCourses u)) u);;
        mret (200, MessageId "Désinscription réussie" id)
  end.

End CourseController.

(** ** controllers/reviewController.js *)

Module ReviewController.

Definition getReviewsByCourse (courseId : ObjectId) : M (Z * Json) :=
  db ← read;
  mret (200, Reviews (map_to_list (filter (λ d, Review.course d.2 = courseId)
                                          (Db.reviews db)))).

Definition getReviewsByUser (userId : ObjectId) : M (Z * Json) :=
  db ← read;
  mret (200, Reviews (map_to_list (filter (λ d, Review.user d.2 = userId)
                                          (Db.reviews db)))).

Definition createReview (g : Gen) (req_user : option ReqUser.t) (b : ReviewBody.t)
  : M (Z * Json) :=
  let courseId := ReviewBody.courseId b in
  course ← CourseModel.findById courseId;
  match course with
  | None => throw 404 (Error "Cours non trouvé")
  | Some _ =>
      me ← deref req_user;
      existingReview ← ReviewModel.findOne_user_course (ReqUser._id me) courseId;
      match existingReview with
      | Some _ => throw 400 (Error "Vous avez déjà laissé un avis pour ce cours")
      | None =>
          review ← ReviewModel.create (oid g) (ReviewBody.rating b) (ReviewBody.comment b)
                     (ReqUser._id me) courseId;
          mret (201, Reviews [review])
      end
  end.

(** [if (rating) review.rating = rating;
     if (comment) review.comment = comment;] *)
Definition truthy_rating (b : ReviewBody.t) : option Z :=
  match ReviewBody.rating b with
  | Some r => if bool_decide (r = 0) then None else Some r
  | None => None
  end.

Definition assign (b : ReviewBody.t) (review : Review.t) : Review.t :=
  Review.mk (default (Review.rating review) (truthy_rating b))
            (or_default (ReviewBody.comment b) (Review.comment review))
            (Review.user review) (Review.course review).

Definition assigned_checks (b : ReviewBody.t) (review : Review.t) : list string :=
  (if truthy_rating b is Some _ then ReviewModel.check_rating (truthy_rating b) else [])
  ++ (if Str.falsy (ReviewBody.comment b) then []
      else ReviewModel.check_comment (Review.comment review)).

Definition updateReview (req_user : option ReqUser.t) (id : ObjectId) (b : ReviewBody.t)
  : M (Z * Json) :=
  review ← ReviewModel.findById id;
  match review with
  | None => throw 404 (Error "Avis non trouvé")
  | Some review =>
      me ← deref req_user;
      if bool_decide (Review.user review ≠ ReqUser._id me)
         && bool_decide (ReqUser.role me ≠ admin)
      then throw 403 (Error "Non autorisé à modifier cet avis")
      else
        let doc := assign b review in
        updatedReview ← ReviewModel.save id doc (assigned_checks b doc);
        mret (200, Reviews [(id, updatedReview)])
  end.

Definition deleteReview (req_user : option ReqUser.t) (id : ObjectId) : M (Z * Json) :=
  review ← ReviewModel.findById id;
  match review with
  | None => throw 404 (Error "Avis non trouvé")
  | Some review =>
      me ← deref req_user;
      if bool_decide (Review.user review ≠ ReqUser._id me)
         && bool_decide (ReqUser.role me ≠ admin)
      then throw 403 (Error "Non autorisé à supprimer cet avis")
      else
        ReviewModel.findByIdAndDelete id;;
        mret (200, MessageId "Avis supprimé avec succès" id)
  end.

End ReviewController.

(** ** controllers/categoryController.js *)

Module CategoryController.

Definition getAllCategories : M (Z * Json) :=
  db ← read; mret (200, Categories (map_to_list (Db.categories db))).

Definition getCategoryById (id : ObjectId) : M (Z * Json) :=
  category ← CategoryModel.findById id;
  match category with
  | None => throw 404 (Error "Catégorie non trouvée")
  | Some k => mret (200, Categories [(id, k)])
  end.

Definition createCategory (g : Gen) (b : CategoryBody.t) : M (Z * Json) :=
  existingCategory ← CategoryModel.findOne_name (CategoryBody.name b);
  match existingCategory with
  | Some _ => throw 400 (Error "Cette catégorie existe déjà")
  | None =>
      category ← CategoryModel.create (oid g) (CategoryBody.name b)
                   (CategoryBody.description b);
      mret (201, Categories [category])
  end.

(** [if (name) category.name = name;
     if (description !== undefined) category.description = description;] *)
Definition assign (b : CategoryBody.t) (k : Category.t) : Category.t :=
  Category.mk
    (if Str.falsy (CategoryBody.name b) then Category.name k
     else Str.trim (default "" (CategoryBody.name b)))
    (default (Category.description k) (CategoryBody.description b))
    (Category.courses k).

Definition assigned_checks (b : CategoryBody.t) (k : Category.t) : list string :=
  (if Str.falsy (CategoryBody.name b) then [] else CategoryModel.check_name (Category.name k))
  ++ from_option CategoryModel.check_description [] (CategoryBody.description b).

Definition updateCategory (id : ObjectId) (b : CategoryBody.t) : M (Z * Json) :=
  category ← CategoryModel.findById id;
  match category with
  | None => throw 404 (Error "Catégorie non trouvée")
  | Some k =>
      let doc := assign b k in
      updatedCategory ← CategoryModel.save id doc (assigned_checks b doc);
      mret (200, Categories [(id, updatedCategory)])
  end.

Definition deleteCategory (id : ObjectId) : M (Z * Json) :=
  category ← CategoryModel.findById id;
  match category with
  | None => throw 404 (Error "Catégorie non trouvée")
  | Some _ =>
      CategoryModel.findByIdAndDelete id;;
      mret (200, MessageId "Catégorie supprimée avec succès" id)
  end.

End CategoryController.

(** ** routes/ and server.js *)

Definition route (g : Gen) (req : Request) : M (Z * Json) :=
  let auth := authorization req in
  match endpoint req with
  (* routes/authRoutes.js *)
  | PostRegister b => AuthController.register g b
  | PostLogin email password => AuthController.login email password
  | GetMe => u ← protect auth; AuthController.getMe u
  | PostLogout => protect auth;; AuthController.logout
  (* routes/userRoutes.js *)
  | GetUsers => u ← protect auth; authorize [admin] u;; UserController.getAllUsers
  | GetUser id => protect auth;; UserController.getUserById id
  | PutUser id b => u ← protect auth; UserController.updateUser g u id b
  | DeleteUser id => u ← protect auth; authorize [admin] u;; UserController.deleteUser id
  (* routes/profileRoutes.js *)
  | GetProfiles => u ← protect auth; authorize [admin] u;; ProfileController.getAllProfiles
  | GetProfile userId => protect auth;; ProfileController.getProfile userId
  | PutProfile userId b => u ← protect auth; ProfileController.updateProfile u userId b
  (* routes/courseRoutes.js *)
  | GetCourses => CourseController.getAllCourses
  | GetCourse id => CourseController.getCourseById id
  | GetCoursesByInstructor i => CourseController.getCoursesByInstructor i
  | PostCourse b =>
      u ← protect auth; authorize [instructor; admin] u;; CourseController.createCourse g u b
  | PutCourse id b =>
      u ← protect auth; authorize [instructor; admin] u;; CourseController.updateCourse u id b
  | DeleteCourse id =>
      u ← protect auth; authorize [instructor; admin] u;; CourseController.deleteCourse u id
  | PostEnroll id => u ← protect auth; CourseController.enrollInCourse u id
  | DeleteEnroll id => u ← protect auth; CourseController.unenrollFromCourse u id
  (* routes/reviewRoutes.js *)
  | GetReviewsByCourse c => ReviewController.getReviewsByCourse c
  | GetReviewsByUser u => protect auth;; ReviewController.getReviewsByUser u
  | PostReview b => u ← protect auth; ReviewController.createReview g u b
  | PutReview id b => u ← protect auth; ReviewController.updateReview u id b
  | DeleteReview id => u ← protect auth; ReviewController.deleteReview u id
  (* routes/categoryRoutes.js *)
  | GetCategories => CategoryController.getAllCategories
  | GetCategory id => CategoryController.getCategoryById id
  | PostCategory b => u ← protect auth; authorize [admin] u;; CategoryController.createCategory g b
  | PutCategory id b => u ← protect auth; authorize [admin] u;; CategoryController.updateCategory id b
  | DeleteCategory id => u ← protect auth; authorize [admin] u;; CategoryController.deleteCategory id
  end.

(** One request served: the database after it and the response. *)
Definition handle (g : Gen) (req : Request) (db : Db.t) : Db.t * Response :=
  match route g req db with
  | (db', inr (status, json)) => (db', mkResponse status json)
  | (db', inl thrown) => (db', errorHandler thrown)
  end.

(** ** Principals, invariants and reachable states *)

(** The account a request acts as: what [protect] leaves in [req.user]. *)
Definition principal (db : Db.t) (req : Request) : option ReqUser.t :=
  match authorization req with
  | Some (Bearer token) =>
      id ← Jwt.verify token;
      ReqUser.select_minus_password id <$> Db.users db !! id
  | _ => None
  end.

Definition by_admin (db : Db.t) (req : Request) : bool :=
  match principal db req with
  | Some me => bool_decide (ReqUser.role me = admin)
  | None => false
  end.

(** Every account of [db] is still there in [db'], with its role. *)
Definition roles_kept (db db' : Db.t) : Prop :=
  ∀ id u, Db.users db !! id = Some u →
    ∃ u', Db.users db' !! id = Some u' ∧ User.role u' = User.role u.

(** Account ↔ Course: both sides of an enrollment agree. *)
Definition enrollment_consistent (db : Db.t) : Prop :=
  ∀ courseId course accountId account,
    Db.courses db !! courseId = Some course →
    Db.users db !! accountId = Some account →
    accountId ∈ Course.enrolledStudents course ↔ courseId ∈ User.enrolledCourses account.


(** A generated ObjectId is new: no stored document refers to it. *)
Definition fresh (db : Db.t) (i : ObjectId) : Prop :=
  map_Forall (λ _ u, i ∉ User.enrolledCourses u) (Db.users db)
  ∧ map_Forall (λ _ c, (i ∉ Course.enrolledStudents c) ∧ (i ∉ Course.categories c))
               (Db.courses db)
  ∧ map_Forall (λ _ k, i ∉ Category.courses k) (Db.categories db).

Global Instance fresh_dec db i : Decision (fresh db i).
Proof. unfold fresh. apply _. Defined.

(** The states the API reaches from the empty database. *)
Inductive reachable : Db.t → Prop :=
| reachable_empty : reachable Db.empty
| reachable_handle g req db :
    reachable db → fresh db (oid g) → reachable (handle g req db).1.



(** ** Reasoning about handlers *)

(** [post m db Q]: running [m] from [db] ends in a database and an
    outcome that satisfy [Q]. *)
Definition post {A} (m : M A) (db : Db.t) (Q : Db.t → Thrown + A → Prop) : Prop :=
  Q (m db).1 (m db).2.

(** The response made of the outcome of a route. *)
Definition respond (r : Thrown + Z * Json) : Response :=
  match r with
  | inr (status, json) => mkResponse status json
  | inl thrown => errorHandler thrown
  end.

(** ** A session with the API *)

Module Scenario.

Definition bearer (id : ObjectId) : option Authorization :=
  Some (Bearer (Jwt.generateToken id)).

Definition after (g : Gen) (req : Request) (db : Db.t) : Db.t := (handle g req db).1.

(** Three registrations: a student (account 1), an instructor (3) and
    an administrator (5). *)
Definition register_as (email : string) (role : option string) : Request :=
  mkRequest None (PostRegister (RegisterBody.mk email "secret1" (Some "Ada") (Some "Lo") role)).

Definition accounts : Db.t :=
  after (mkGen 5 6 13) (register_as "root@x.com" (Some "admin"))
    (after (mkGen 3 4 12) (register_as "prof@x.com" (Some "instructor"))
       (after (mkGen 1 2 11) (register_as "a@x.com" None) Db.empty)).

(** The administrator creates the categories 7 and 8, the instructor
    creates the course 9 in category 7. *)
Definition new_category (name : string) : Request :=
  mkRequest (bearer 5) (PostCategory (CategoryBody.mk (Some name) None)).

Definition course_body (price : Z) (categories : list ObjectId) (instructor : option ObjectId)
  : CourseBody.t :=
  CourseBody.mk (Some "Rocq") (Some "Proofs") (Some price) None None None
                (Some categories) (Some true) instructor.

Definition catalogue : Db.t :=
  after (mkGen 9 0 16) (mkRequest (bearer 3) (PostCourse (course_body 10 [7%nat] None)))
    (after (mkGen 8 0 15) (new_category "Data")
       (after (mkGen 7 0 14) (new_category "Web") accounts)).

(** The student enrolls in the course. *)
Definition enrolled : Db.t :=
  after (mkGen 10 0 17) (mkRequest (bearer 1) (PostEnroll 9)) catalogue.

(** The administrator deletes the account of the student. *)
Definition student_deleted : Db.t :=
  after (mkGen 11 0 18) (mkRequest (bearer 5) (DeleteUser 1)) enrolled.

(** The course moved to category 8 at a negative price. *)
Definition rejected_move : Request :=
  mkRequest (bearer 3) (PutCourse 9 (course_body (-1) [8%nat] None)).

(** The same course moved to category 8 at the price 20. *)
Definition moved : Db.t :=
  after (mkGen 12 0 19) (mkRequest (bearer 3) (PutCourse 9 (course_body 20 [8%nat] None)))
        catalogue.


End Scenario.

(** ** The guards of the routes (routes/) *)

(** The routes mounted behind [protect]. *)
Definition protected (ep : Endpoint) : bool :=
  match ep with
  | PostRegister _ | PostLogin _ _
  | GetCourses | GetCourse _ | GetCoursesByInstructor _
  | GetReviewsByCourse _
  | GetCategories | GetCategory _ => false
  | _ => true
  end.

(** The roles a route passes to [authorize], if it has that guard. *)
Definition required_roles (ep : Endpoint) : option (list Role) :=
  match ep with
  | GetUsers | DeleteUser _ | GetProfiles
  | PostCategory _ | PutCategory _ _ | DeleteCategory _ => Some [admin]
  | PostCourse _ | PutCourse _ _ | DeleteCourse _ => Some [instructor; admin]
  | _ => None
  end.

(** The requests that only read: every GET, and login and logout. *)
Definition reads (ep : Endpoint) : bool :=
  match ep with
  | PostLogin _ _ | GetMe | PostLogout
  | GetUsers | GetUser _ | GetProfiles | GetProfile _
  | GetCourses | GetCourse _ | GetCoursesByInstructor _
  | GetReviewsByCourse _ | GetReviewsByUser _
  | GetCategories | GetCategory _ => true
  | _ => false
  end.

(** No token that [jwt.verify] accepts: no header, another scheme, or a
    malformed, expired or mis-signed token. *)
Definition unverified (authorization : option Authorization) : bool :=
  match authorization with
  | Some (Bearer token) => bool_decide (Jwt.verify token = None)
  | _ => true
  end.

(** The account a handler compares [req.user._id] with before it lets a
    principal that is no administrator write. *)
Definition owner (db : Db.t) (ep : Endpoint) : option ObjectId :=
  match ep with
  | PutUser id _ => (λ _, id) <$> Db.users db !! id
  | PutProfile userId _ => Some userId
  | PutCourse id _ | DeleteCourse id => Course.instructor <$> Db.courses db !! id
  | PutReview id _ | DeleteReview id => Review.user <$> Db.reviews db !! id
  | _ => None
  end.


(** ** What the schemas promise of a stored document (models/) *)

(** No two accounts with the same email (the unique index of
    models/User.js). *)
Definition emails_unique (db : Db.t) : Prop :=
  ∀ i j u v, Db.users db !! i = Some u → Db.users db !! j = Some v →
    User.email u = User.email v → i = j.

(** The email passed the validators of its path and the password is a
    bcrypt hash. *)
Definition account_valid (u : User.t) : Prop :=
  UserModel.check_email (User.email u) = []
  ∧ ∃ input salt, User.password u = Bcrypt.Hash input salt.

Definition accounts_valid (db : Db.t) : Prop :=
  ∀ id u, Db.users db !! id = Some u → account_valid u.

(** An account that names a profile names a stored profile of its own. *)
Definition profiles_linked (db : Db.t) : Prop :=
  ∀ id u p, Db.users db !! id = Some u → User.profile u = Some p →
    ∃ profile, Db.profiles db !! p = Some profile ∧ Profile.user profile = id.

(** Every stored profile has valid names and a valid bio, and an account
    has at most one profile (the unique index of models/Profile.js). *)
Definition profiles_valid (db : Db.t) : Prop :=
  (∀ id p, Db.profiles db !! id = Some p →
     ProfileModel.check_firstName (Profile.firstName p) = []
     ∧ ProfileModel.check_lastName (Profile.lastName p) = []
     ∧ ProfileModel.check_bio (Profile.bio p) = [])
  ∧ ∀ i j p q, Db.profiles db !! i = Some p → Db.profiles db !! j = Some q →
      Profile.user p = Profile.user q → i = j.

Definition course_valid (c : Course.t) : Prop :=
  CourseModel.check_title (Course.title c) = []
  ∧ CourseModel.check_description (Course.description c) = []
  ∧ 0 ≤ Course.price c
  ∧ Course.level c ∈ CourseModel.levels.

Definition courses_valid (db : Db.t) : Prop :=
  ∀ id c, Db.courses db !! id = Some c → course_valid c.

Definition review_valid (r : Review.t) : Prop :=
  1 ≤ Review.rating r ≤ 5 ∧ ReviewModel.check_comment (Review.comment r) = [].

(** Every stored review is valid, and an account has at most one review
    of a course (the unique index of models/Review.js). *)
Definition reviews_valid (db : Db.t) : Prop :=
  (∀ id r, Db.reviews db !! id = Some r → review_valid r)
  ∧ ∀ i j r s, Db.reviews db !! i = Some r → Db.reviews db !! j = Some s →
      Review.user r = Review.user s → Review.course r = Review.course s → i = j.

(** Every stored category has a valid name, and no two categories have
    the same name (the unique index of models/Category.js). *)
Definition categories_valid (db : Db.t) : Prop :=
  (∀ id k, Db.categories db !! id = Some k →
     CategoryModel.check_name (Category.name k) = []
     ∧ CategoryModel.check_description (Category.description k) = [])
  ∧ ∀ i j k l, Db.categories db !! i = Some k → Db.categories db !! j = Some l →
      Category.name k = Category.name l → i = j.

(** No identifier twice in a list of enrolled students, of enrolled
    courses or of courses of a category. *)
Definition no_double_entry (db : Db.t) : Prop :=
  (∀ id c, Db.courses db !! id = Some c → NoDup (Course.enrolledStudents c))
  ∧ (∀ id u, Db.users db !! id = Some u → NoDup (User.enrolledCourses u))
  ∧ (∀ id k, Db.categories db !! id = Some k → NoDup (Category.courses k)).

(** Every course of [db] that [db'] still has, has the instructor it
    had. *)
Definition instructors_kept (db db' : Db.t) : Prop :=
  ∀ id c c', Db.courses db !! id = Some c → Db.courses db' !! id = Some c' →
    Course.instructor c' = Course.instructor c.

(** ** The session goes on *)

Module Session.
Import Scenario.

(** The student reviews the course. *)
Definition reviewed : Db.t :=
  after (mkGen 13 0 20)
    (mkRequest (bearer 1) (PostReview (ReviewBody.mk (Some 5) (Some "Clear") 9%nat)))
    enrolled.

(** The instructor deletes the course. *)
Definition course_deleted : Db.t :=
  after (mkGen 14 0 21) (mkRequest (bearer 3) (DeleteCourse 9)) reviewed.

End Session.

(** * Properties *)

Import Scenario.

Local Set Warnings "-clear-no-such-hyp".

(** ** Running a handler *)

Lemma post_bind {A B} (m : M A) (f : A → M B) db Q :
  post m db (λ db' r, match r with
                      | inl t => Q db' (inl t)
                      | inr a => post (f a) db' Q
                      end) →
  post (m ≫= f) db Q.
Proof. unfold post, mbind, M_bind. destruct (m db) as [db' [t|a]]; simpl; auto. Qed.

Lemma post_ret {A} (a : A) db Q : Q db (inr a) → post (mret a) db Q.
Proof. done. Qed.

Lemma post_throw {A} s e db (Q : Db.t → Thrown + A → Prop) :
  Q db (inl (mkThrown s e)) → post (throw s e) db Q.
Proof. done. Qed.

Lemma post_read db Q : Q db (inr db) → post read db Q.
Proof. done. Qed.

Lemma post_write f db Q : Q (f db) (inr tt) → post (write f) db Q.
Proof. done. Qed.

Ltac unfold_m :=
  unfold mbind, M_bind, mret, M_ret, throw, read, write, validated, deref in *.

Create HintDb handlers.
Global Hint Unfold
  validated deref authorize protect
  UserModel.findById UserModel.findOne_email UserModel.store UserModel.create
  UserModel.save UserModel.findByIdAndUpdate UserModel.findByIdAndDelete
  UserModel.updateMany_pull_course
  ProfileModel.findOne_user ProfileModel.store ProfileModel.create
  CourseModel.findById CourseModel.create CourseModel.save CourseModel.findByIdAndDelete
  CategoryModel.findById CategoryModel.findOne_name CategoryModel.store
  CategoryModel.create CategoryModel.save CategoryModel.findByIdAndDelete
  CategoryModel.updateMany_pull CategoryModel.updateMany_addToSet
  ReviewModel.findById ReviewModel.findOne_user_course ReviewModel.store
  ReviewModel.create ReviewModel.save ReviewModel.findByIdAndDelete
  AuthController.register AuthController.login AuthController.getMe AuthController.logout
  UserController.getAllUsers UserController.getUserById UserController.updateUser
  UserController.deleteUser
  ProfileController.getProfile ProfileController.getAllProfiles
  ProfileController.updateProfile
  CourseController.getAllCourses CourseController.getCourseById
  CourseController.getCoursesByInstructor CourseController.createCourse
  CourseController.updateCourse CourseController.deleteCourse
  CourseController.enrollInCourse CourseController.unenrollFromCourse
  ReviewController.getReviewsByCourse ReviewController.getReviewsByUser
  ReviewController.createReview ReviewController.updateReview ReviewController.deleteReview
  CategoryController.getAllCategories CategoryController.getCategoryById
  CategoryController.createCategory CategoryController.updateCategory
  CategoryController.deleteCategory : handlers.

(** One step of a handler: a bind, a primitive of the monad, a case
    distinction of the code, or the body of the function that comes
    next. *)
Ltac wp_step :=
  lazymatch goal with
  | |- post (mbind _ _) _ _ => apply post_bind
  | |- post (mret _) _ _ => apply post_ret
  | |- post (throw _ _) _ _ => apply post_throw
  | |- post read _ _ => apply post_read
  | |- post (write _) _ _ => apply post_write
  | |- post (match ?x with _ => _ end) _ _ =>
      first [is_var x; destruct x | destruct x eqn:?]
  | |- post (let x := _ in _) _ _ => intros x
  | |- post _ _ _ => progress autounfold with handlers
  end; cbv beta iota.

Ltac wp := repeat wp_step.

Lemma post_handle (g : Gen) (req : Request) (db : Db.t) (R : Db.t → Prop) :
  post (route g req) db (λ db' _, R db') → R (handle g req db).1.
Proof. unfold post, handle. destruct (route g req db) as [db' [t|[s j]]]; done. Qed.

(** Facts of boolean tests as propositions. *)
Ltac boolp :=
  simpl in *;
  repeat match goal with
  | H : _ && _ = true |- _ => apply andb_true_iff in H as [? ?]
  | H : _ || _ = false |- _ => apply orb_false_iff in H as [? ?]
  | H : negb _ = true |- _ => apply negb_true_iff in H
  | H : negb _ = false |- _ => apply negb_false_iff in H
  | H : bool_decide _ = true |- _ => apply bool_decide_eq_true_1 in H
  | H : bool_decide _ = false |- _ => apply bool_decide_eq_false_1 in H
  | H : ¬ is_Some _ |- _ => rewrite <- eq_None_not_Some in H
  | H : ¬ (_ ≠ _) |- _ => apply dec_stable in H
  end.

Ltac lookups :=
  repeat first
    [ rewrite lookup_insert | rewrite lookup_alter | rewrite lookup_delete
    | rewrite lookup_fmap | rewrite map_lookup_imap | case_decide ];
  simplify_eq/=.

Lemma handle_respond g req db :
  handle g req db = ((route g req db).1, respond (route g req db).2).
Proof. unfold handle. by destruct (route g req db) as [db' [t|[s j]]]. Qed.

Lemma post_handle_response (g : Gen) (req : Request) (db : Db.t)
    (R : Db.t → Response → Prop) :
  post (route g req) db (λ db' r, R db' (respond r)) →
  R (handle g req db).1 (handle g req db).2.
Proof. unfold post. by rewrite handle_respond. Qed.

(** ** Roles *)

Lemma roles_kept_refl db : roles_kept db db.
Proof. intros id u H. eauto. Qed.

Lemma pre_save_role m s u : User.role (UserModel.pre_save m s u) = User.role u.
Proof. by destruct m. Qed.

Lemma assign_role me b u :
  ReqUser.role me ≠ admin →
  User.role (UserController.assign me b u) = User.role u.
Proof.
  intros H. unfold UserController.assign, UserController.role_assigned.
  rewrite (bool_decide_eq_false_2 _ H), andb_false_r. simpl. by case_match.
Qed.

Lemma by_admin_false db token ep o me :
  by_admin db (mkRequest (Some (Bearer token)) ep) = false →
  Jwt.verify token = Some o →
  ReqUser.select_minus_password o <$> Db.users db !! o = Some me →
  ReqUser.role me ≠ admin.
Proof.
  unfold by_admin, principal. simpl. intros H Hv Hme.
  rewrite Hv in H. simpl in H. rewrite Hme in H.
  by apply bool_decide_eq_false_1 in H.
Qed.

Ltac not_admin :=
  match goal with
  | Hadm : by_admin _ _ = false, Hv : Jwt.verify _ = Some _, Hme : _ <$> _ = Some ?me |- _ =>
      pose proof (by_admin_false _ _ _ _ _ Hadm Hv Hme)
  end.

Ltac kept :=
  try apply roles_kept_refl;
  boolp;
  try match goal with
      | H : ?r ∈ [admin], H' : ?r ≠ admin |- _ =>
          apply list_elem_of_singleton in H; by destruct H'
      end;
  intros i u Hu; simpl; lookups;
  try match goal with H : Db.users _ !! _ = Some _ |- _ => rewrite H end; simpl;
  eexists; (split; [reflexivity|]);
  rewrite ?pre_save_role, ?assign_role by done;
  try case_bool_decide; done.

Lemma handle_roles_kept g req db :
  by_admin db req = false → roles_kept db (handle g req db).1.
Proof.
  intros Hadm. destruct req as [auth ep]. apply post_handle.
  unfold route. simpl.
  destruct ep; wp; try apply roles_kept_refl.
  all: try not_admin.
  all: kept.
Qed.

(** ** The two many-to-many relations *)

Lemma elem_of_addToSet x y l : y ∈ addToSet x l ↔ y = x ∨ y ∈ l.
Proof.
  unfold addToSet. case_bool_decide.
  - split; [auto|]. intros [->|?]; done.
  - rewrite elem_of_app, list_elem_of_singleton. tauto.
Qed.

Lemma elem_of_pull x y l : y ∈ pull x l ↔ y ≠ x ∧ y ∈ l.
Proof. unfold pull. by rewrite list_elem_of_filter. Qed.

Lemma pre_save_enrolledCourses m s u :
  User.enrolledCourses (UserModel.pre_save m s u) = User.enrolledCourses u.
Proof. by destruct m. Qed.

Lemma assign_enrolledCourses me b u :
  User.enrolledCourses (UserController.assign me b u) = User.enrolledCourses u.
Proof. unfold UserController.assign. repeat case_match; done. Qed.

Ltac lookups_in H :=
  repeat first
    [ rewrite lookup_insert in H | rewrite lookup_alter in H | rewrite lookup_delete in H
    | rewrite lookup_fmap in H | rewrite map_lookup_imap in H ].

Ltac split_lookups :=
  repeat match goal with
  | H : context [decide _] |- _ => case_decide
  | H : _ <$> _ = Some _ |- _ => apply fmap_Some in H as (? & ? & ?)
  | H : _ ≫= _ = Some _ |- _ => apply bind_Some in H as (? & ? & ?)
  end; simplify_eq/=.

(** Adds [pf] to the context unless its statement is there already. *)
Ltac learn pf :=
  let F := fresh "F" in
  pose proof pf as F; cbv beta in F;
  let T := type of F in
  lazymatch goal with
  | _ : T, _ : T |- _ => clear F; fail
  | _ => idtac
  end.

Ltac use_fresh :=
  repeat match goal with
  | Hf : map_Forall _ ?m, H : ?m !! _ = Some _ |- _ => learn (Hf _ _ H)
  end;
  repeat match goal with H : _ ∧ _ |- _ => destruct H end.

Ltac use_enrollment Hinv :=
  repeat match goal with
  | Hc : Db.courses ?db !! ?c = Some ?course, Ha : Db.users ?db !! ?a = Some ?account |- _ =>
      learn (Hinv c course a account Hc Ha)
  end.


Ltac membership :=
  unfold UserModel.next;
  rewrite ?pre_save_enrolledCourses, ?assign_enrolledCourses;
  repeat case_bool_decide; simpl;
  rewrite ?elem_of_addToSet, ?elem_of_pull, ?list_elem_of_filter, ?elem_of_app,
    ?list_elem_of_singleton, ?elem_of_nil.

Lemma handle_enrollment_consistent g req db :
  enrollment_consistent db → fresh db (oid g) →
  enrollment_consistent (handle g req db).1.
Proof.
  intros Hinv (Hf1 & Hf2 & Hf3). destruct req as [auth ep]. apply post_handle.
  unfold route. simpl.
  destruct ep; wp; try exact Hinv.
  all: boolp; intros c course a account Hc Ha; simpl in Hc, Ha;
    lookups_in Hc; lookups_in Ha; split_lookups.
  all: try (by eapply Hinv).
  all: use_fresh; use_enrollment Hinv; membership.
  all: naive_solver.
Qed.


(** ** Role elevation *)

(** C1. A request that does not act as an administrator leaves every
    stored account in place with its role; in particular the account it
    acts as is no administrator afterwards. *)
Theorem non_admin_keeps_roles (g : Gen) (req : Request) (db : Db.t) :
  by_admin db req = false →
  roles_kept db (handle g req db).1
  ∧ ∀ me account,
      principal db req = Some me →
      Db.users (handle g req db).1 !! ReqUser._id me = Some account →
      User.role account ≠ admin.
Proof.
  intros Hadm. pose proof (handle_roles_kept g req db Hadm) as Hkept.
  split; [done|]. intros me account Hme Hacc.
  unfold by_admin in Hadm. rewrite Hme in Hadm. apply bool_decide_eq_false_1 in Hadm.
  unfold principal in Hme. destruct (authorization req) as [[|token]|]; try done.
  apply bind_Some in Hme as (id & _ & Hme).
  apply fmap_Some in Hme as (u & Hu & ->). simpl in *.
  destruct (Hkept id u Hu) as (u' & Hu' & Hrole). congruence.
Qed.

Lemma non_admin_keeps_roles_witness :
  let g := mkGen 12 0 19 in
  let req := mkRequest (bearer 1) (PutUser 1 (UserBody.mk None (Some "admin"))) in
  status (handle g req accounts).2 = 200
  ∧ roles_kept accounts (handle g req accounts).1.
Proof.
  intros g req. split; [vm_compute; reflexivity|].
  apply (non_admin_keeps_roles g req accounts). vm_compute. reflexivity.
Defined.

(** ** Enrollment: Account ↔ Course *)

(** C5. In every state the API reaches, a stored account is among the
    enrolled students of a stored course exactly when the course is
    among the enrolled courses of the account. *)
Theorem reachable_enrollment_consistent (db : Db.t) :
  reachable db → enrollment_consistent db.
Proof.
  induction 1 as [|g req db _ IH Hfresh].
  - intros c course a account Hc. simpl in Hc. by rewrite lookup_empty in Hc.
  - by apply handle_enrollment_consistent.
Qed.

Ltac freshness := apply (bool_decide_unpack _); vm_compute; exact I.

Lemma reachable_enrollment_consistent_witness :
  enrollment_consistent student_deleted.
Proof.
  apply reachable_enrollment_consistent.
  unfold student_deleted, enrolled, catalogue, accounts, after.
  repeat (apply reachable_handle; [|freshness]).
  apply reachable_empty.
Defined.

(** The theorem speaks of stored accounts: deleting an account cleans
    nothing up (controllers/userController.js says so), and the
    identifier of the deleted student stays among the enrolled students
    of the course. *)
Lemma deleted_account_stays_listed :
  Db.users student_deleted !! 1%nat = None
  ∧ Course.enrolledStudents <$> Db.courses student_deleted !! 9%nat = Some [1%nat].
Proof. split; vm_compute; reflexivity. Qed.

(** ** The derived average rating *)

Section AverageRating.
Import Rating.












End AverageRating.

(** ** Categories: Course ↔ Category *)




(** ** Enrolling and unenrolling *)

(** What [protect] leaves in [req.user] is the principal. *)
Lemma principal_inv db auth ep me :
  principal db (mkRequest auth ep) = Some me →
  ∃ token account,
    auth = Some (Bearer token) ∧ Jwt.verify token = Some (ReqUser._id me)
    ∧ Db.users db !! ReqUser._id me = Some account
    ∧ me = ReqUser.select_minus_password (ReqUser._id me) account.
Proof.
  unfold principal. simpl. destruct auth as [[|token]|]; try done.
  intros H. apply bind_Some in H as (id & Hv & H).
  apply fmap_Some in H as (u & Hu & ->). simpl. eauto 10.
Qed.

(** [principal] is what the code of [protect] computes: [protect] either
    throws with 401 or leaves the principal in [req.user]. *)
Lemma protect_cases (auth : option Authorization) (ep : Endpoint) (db : Db.t) :
  protect auth db = (db, inr (principal db (mkRequest auth ep)))
  ∨ ∃ thrown, protect auth db = (db, inl thrown) ∧ thrown_status thrown = 401.
Proof.
  unfold protect, principal. simpl.
  destruct auth as [[|token]|]; [right|..|right]; try (eexists; split; reflexivity).
  destruct (Jwt.verify token) as [id|]; [left; reflexivity|right].
  eexists; split; reflexivity.
Qed.

Lemma protect_principal db auth ep me :
  principal db (mkRequest auth ep) = Some me →
  protect auth db = (db, inr (Some me)).
Proof.
  intros H. apply principal_inv in H as (token & account & -> & Hv & Hu & Hme).
  unfold protect. rewrite Hv. unfold_m. simpl. rewrite Hu. simpl. by rewrite <- Hme.
Qed.



(** ** Course creation *)

Lemma post_protect db auth ep me (Q : Db.t → Thrown + option ReqUser.t → Prop) :
  principal db (mkRequest auth ep) = Some me →
  Q db (inr (Some me)) → post (protect auth) db Q.
Proof. intros H HQ. unfold post. by rewrite (protect_principal _ _ _ _ H). Qed.

(** The document stored by a course creation that answers 201. *)
Lemma createCourse_document g auth db b me :
  principal db (mkRequest auth (PostCourse b)) = Some me →
  status (handle g (mkRequest auth (PostCourse b)) db).2 = 201 →
  Db.courses (handle g (mkRequest auth (PostCourse b)) db).1 !! oid g
  = Some (Course.mk (Str.trim (default "" (CourseBody.title b)))
                    (default "" (CourseBody.description b))
                    (default 0 (CourseBody.price b))
                    (default "" (CourseBody.image b))
                    (default "débutant" (CourseBody.level b))
                    (default 0 (CourseBody.duration b))
                    (ReqUser._id me)
                    (default [] (CourseBody.categories b))
                    []
                    (default false (CourseBody.isPublished b))).
Proof.
  intros Hme.
  apply (post_handle_response g _ db (λ db' res, status res = 201 → Db.courses db' !! oid g = _)).
  unfold route. simpl.
  apply post_bind, (post_protect _ _ _ _ _ Hme). cbv beta iota.
  wp; intros Hs; try discriminate Hs; simpl; by rewrite lookup_insert_eq.
Qed.

(** C9. A course created by an instructor or an administrator is owned
    by the acting principal, and an [instructor] field of the request
    body changes nothing: requests that differ in it only store the same
    course document, and answer alike when the same ObjectId is drawn. *)
Theorem createCourse_sets_instructor (g1 g2 : Gen) (auth : option Authorization)
    (db : Db.t) (b : CourseBody.t) (i1 i2 : option ObjectId) (me : ReqUser.t) :
  principal db (mkRequest auth (PostCourse b)) = Some me →
  ReqUser.role me ∈ [instructor; admin] →
  let r1 := handle g1 (mkRequest auth (PostCourse (CourseBody.set_instructor i1 b))) db in
  let r2 := handle g2 (mkRequest auth (PostCourse (CourseBody.set_instructor i2 b))) db in
  (status r1.2 = 201 →
     ∃ course, Db.courses r1.1 !! oid g1 = Some course
               ∧ Course.instructor course = ReqUser._id me
               ∧ (status r2.2 = 201 → Db.courses r2.1 !! oid g2 = Some course))
  ∧ (g1 = g2 → r1 = r2).
Proof.
  intros Hme Hrole r1 r2. split.
  - intros Hs. eexists. split; [|split].
    + by apply (createCourse_document g1 auth db (CourseBody.set_instructor i1 b) me).
    + reflexivity.
    + intros Hs2.
      by apply (createCourse_document g2 auth db (CourseBody.set_instructor i2 b) me).
  - intros <-. reflexivity.
Qed.

Lemma createCourse_sets_instructor_witness :
  let g := mkGen 20 0 21 in
  let req i := mkRequest (bearer 3) (PostCourse (course_body 10 [7%nat] i)) in
  status (handle g (req (Some 1%nat)) accounts).2 = 201
  ∧ (∃ course, Db.courses (handle g (req (Some 1%nat)) accounts).1 !! 20%nat = Some course
               ∧ Course.instructor course = 3%nat)
  ∧ handle g (req (Some 1%nat)) accounts = handle g (req None) accounts.
Proof.
  intros g req.
  edestruct (createCourse_sets_instructor g g (bearer 3) accounts (course_body 10 [7%nat] None)
               (Some 1%nat) None) as (H1 & H2).
  - vm_compute. reflexivity.
  - vm_compute. apply list_elem_of_here.
  - split; [vm_compute; reflexivity|]. split.
    + destruct H1 as (course & Hc & Hi & _); [vm_compute; reflexivity|].
      exists course. split; [exact Hc|exact Hi].
    + apply H2. reflexivity.
Defined.

(** ** Registration without a name *)

Lemma find_doc_Some {A} (P : ObjectId → A → bool) (m : gmap ObjectId A) i x :
  find_doc P m = Some (i, x) → m !! i = Some x ∧ P i x = true.
Proof.
  unfold find_doc. intros H. apply find_some in H as [Hin HP].
  split; [|done]. apply elem_of_map_to_list. by apply list_elem_of_In.
Qed.

Lemma email_in_use_false (users : gmap ObjectId User.t) (except : ObjectId) (e : string) :
  map_Forall (λ _ u, User.email u ≠ e) users →
  UserModel.email_in_use users except e = false.
Proof.
  intros H. unfold UserModel.email_in_use. apply bool_decide_eq_false_2.
  intros (i & u & Hu & _ & He). by apply (H i u Hu).
Qed.

(** C3, where the code departs from it: a registration without last
    name on the empty database is answered 400, and the account of the
    supplied email is stored all the same, without profile. *)
Theorem register_missing_name_persists_account :
  let g := mkGen 1 2 11 in
  let req := mkRequest None (PostRegister
               (RegisterBody.mk "a@x.com" "secret1" (Some "Ada") None None)) in
  status (handle g req Db.empty).2 = 400
  ∧ (handle g req Db.empty).1 ≠ Db.empty
  ∧ Db.profiles (handle g req Db.empty).1 = ∅
  ∧ ∃ account, Db.users (handle g req Db.empty).1 !! 1%nat = Some account
               ∧ User.email account = "a@x.com"
               ∧ User.profile account = None.
Proof.
  intros g req. split; [vm_compute; reflexivity|]. split.
  - intros H. apply (f_equal (λ db, Db.users db !! 1%nat)) in H. vm_compute in H. discriminate H.
  - split; [vm_compute; reflexivity|].
    eexists. repeat split; vm_compute; reflexivity.
Qed.

(** What a registration without first or last name does in general: it
    is answered 400 with a message and no token, it creates no profile
    and touches no course, category or review; its only possible trace
    is the new account, stored without profile, and that account is
    stored whenever the email is unused and email, password and role are
    valid. *)
Lemma register_missing_name (g : Gen) (auth : option Authorization) (db : Db.t)
    (b : RegisterBody.t) :
  Str.falsy (RegisterBody.firstName b) || Str.falsy (RegisterBody.lastName b) = true →
  let email := UserModel.normalize_email (RegisterBody.email b) in
  let role := or_default (RegisterBody.role b) "student" in
  let account := User.mk email (Bcrypt.Hash (Bcrypt.Plain (RegisterBody.password b)) (salt g))
                         (default student (role_of_string role)) None [] in
  let db' := (handle g (mkRequest auth (PostRegister b)) db).1 in
  let res := (handle g (mkRequest auth (PostRegister b)) db).2 in
  status res = 400
  ∧ (∃ message, body res = Message message)
  ∧ Db.profiles db' = Db.profiles db
  ∧ Db.courses db' = Db.courses db
  ∧ Db.categories db' = Db.categories db
  ∧ Db.reviews db' = Db.reviews db
  ∧ (Db.users db' = Db.users db
     ∨ Db.users db !! oid g = None ∧ Db.users db' = <[oid g := account]> (Db.users db))
  ∧ (map_Forall (λ _ u, User.email u ≠ email) (Db.users db) →
     Db.users db !! oid g = None →
     (UserModel.check_email email
      ++ UserModel.check_password (Bcrypt.Plain (RegisterBody.password b))
      ++ UserModel.check_role role)%list = [] →
     Db.users db' = <[oid g := account]> (Db.users db)).
Proof.
  intros Hname email role account.
  apply (post_handle_response g (mkRequest auth (PostRegister b)) db
    (λ db' res, status res = 400
  ∧ (∃ message, body res = Message message)
  ∧ Db.profiles db' = Db.profiles db
  ∧ Db.courses db' = Db.courses db
  ∧ Db.categories db' = Db.categories db
  ∧ Db.reviews db' = Db.reviews db
  ∧ (Db.users db' = Db.users db
     ∨ Db.users db !! oid g = None ∧ Db.users db' = <[oid g := account]> (Db.users db))
  ∧ (map_Forall (λ _ u, User.email u ≠ email) (Db.users db) →
     Db.users db !! oid g = None →
     (UserModel.check_email email
      ++ UserModel.check_password (Bcrypt.Plain (RegisterBody.password b))
      ++ UserModel.check_role role)%list = [] →
     Db.users db' = <[oid g := account]> (Db.users db)))).
  unfold route. simpl. wp; try congruence.
  all: subst email role account; simpl; boolp.
  all: repeat split; eauto.
  all: intros Hfree Hnew Hvalid; try congruence.
  - destruct p as [i u]. apply find_doc_Some in Heqo as [Hu HP].
    apply bool_decide_eq_true_1 in HP. by destruct (Hfree i u Hu).
  - match goal with H : is_Some _ |- _ => rewrite Hnew in H; by destruct H end.
  - match goal with H : UserModel.email_in_use _ _ _ = true |- _ =>
      rewrite email_in_use_false in H by done; discriminate H end.
Qed.

(** ** The password hash across a save *)



(** ** The token of a deleted account *)

(** C4, where the code departs from it: the token of the deleted
    student still verifies, [protect] leaves [null] in [req.user] and
    hands over; the request is answered 200 where the handler does not
    look at the principal and 500 where it does, never 401. A missing
    header and a malformed, expired or mis-signed token are answered
    401. *)
Theorem deleted_account_token_not_401 :
  let g := mkGen 12 0 19 in
  let answer auth ep := status (handle g (mkRequest auth ep) student_deleted).2 in
  Jwt.verify (Jwt.generateToken 1) = Some 1%nat
  ∧ Db.users student_deleted !! 1%nat = None
  ∧ protect (bearer 1) student_deleted = (student_deleted, inr None)
  ∧ answer (bearer 1) PostLogout = 200
  ∧ answer (bearer 1) (GetUser 3) = 200
  ∧ answer (bearer 1) GetMe = 500
  ∧ answer (bearer 1) (PostEnroll 9) = 500
  ∧ answer None PostLogout = 401
  ∧ answer (Some OtherScheme) PostLogout = 401
  ∧ answer (Some (Bearer Jwt.Malformed)) PostLogout = 401
  ∧ answer (Some (Bearer (Jwt.Signed 1 true true))) PostLogout = 401
  ∧ answer (Some (Bearer (Jwt.Signed 1 false false))) PostLogout = 401.
Proof. intros g answer. repeat split; vm_compute; reflexivity. Qed.

(** ** Registration with a chosen role *)

(** C10. A registration without any token that names the role admin
    (or instructor) is answered 201, stores an account with that role
    and returns a token that verifies for the account and acts with its
    role; without a role the account is a student. *)
Theorem register_with_chosen_role :
  let g := mkGen 21 22 23 in
  let run role := handle g (register_as "eve@x.com" role) accounts in
  let granted role r :=
    status (run role).2 = 201
    ∧ ∃ account profile token,
        Db.users (run role).1 !! 21%nat = Some account
        ∧ User.role account = r
        ∧ body (run role).2 = AuthInfo 21 "eve@x.com" r profile token
        ∧ Jwt.verify token = Some 21%nat
        ∧ ReqUser.role <$> principal (run role).1 (mkRequest (Some (Bearer token)) GetUsers)
          = Some r in
  authorization (register_as "eve@x.com" (Some "admin")) = None
  ∧ granted (Some "admin") admin
  ∧ granted (Some "instructor") instructor
  ∧ granted None student.
Proof.
  intros g run granted. split; [reflexivity|].
  repeat split; try (vm_compute; reflexivity).
  all: do 3 eexists; repeat split; vm_compute; reflexivity.
Qed.

(** * The rest of the API *)

(** ** What the guards of the routes answer *)

(** X1. A GET request, a login or a logout leaves the database as it
    was, whatever it is answered. *)
Theorem reads_change_nothing (g : Gen) (req : Request) (db : Db.t) :
  reads (endpoint req) = true → (handle g req db).1 = db.
Proof.
  destruct req as [auth ep]. simpl. intros Hr. apply post_handle.
  unfold route. simpl. destruct ep; try discriminate Hr; wp; reflexivity.
Qed.

Lemma reads_change_nothing_witness :
  (handle (mkGen 13 0 20) (mkRequest None GetCourses) catalogue).1 = catalogue.
Proof. apply reads_change_nothing. reflexivity. Defined.

(** X2. A route behind [protect] answers 401 and writes nothing when
    the request carries no Bearer token that [jwt.verify] accepts. *)
Theorem unverified_is_401 (g : Gen) (req : Request) (db : Db.t) :
  protected (endpoint req) = true → unverified (authorization req) = true →
  (handle g req db).1 = db ∧ status (handle g req db).2 = 401.
Proof.
  destruct req as [auth ep]. simpl. intros Hp Hu.
  apply (post_handle_response g _ db (λ db' res, db' = db ∧ status res = 401)).
  unfold route. simpl.
  destruct ep; try discriminate Hp; wp; try done.
  all: simpl in Hu; apply bool_decide_eq_true_1 in Hu; congruence.
Qed.

Lemma unverified_is_401_witness :
  let g := mkGen 13 0 20 in
  let req := mkRequest (Some (Bearer (Jwt.Signed 5 true true))) (DeleteUser 1) in
  (handle g req accounts).1 = accounts ∧ status (handle g req accounts).2 = 401.
Proof. intros g req. apply unverified_is_401; vm_compute; reflexivity. Defined.

(** X3. A route behind [authorize] answers 403 and writes nothing when
    the role of the principal is not among the roles of the route. *)
Theorem role_guard_403 (g : Gen) (req : Request) (db : Db.t) (roles : list Role)
    (me : ReqUser.t) :
  required_roles (endpoint req) = Some roles →
  principal db req = Some me → ReqUser.role me ∉ roles →
  (handle g req db).1 = db ∧ status (handle g req db).2 = 403.
Proof.
  destruct req as [auth ep]. simpl. intros Hr Hme Hrole.
  apply (post_handle_response g _ db (λ db' res, db' = db ∧ status res = 403)).
  unfold route. simpl.
  destruct ep; try discriminate Hr; injection Hr as <-;
    apply post_bind, (post_protect _ _ _ _ _ Hme); cbv beta iota;
    apply post_bind; unfold authorize; wp; try done.
  all: boolp; done.
Qed.

Lemma role_guard_403_witness :
  let g := mkGen 13 0 20 in
  let req := mkRequest (bearer 1) (PostCourse (course_body 10 [] None)) in
  (handle g req accounts).1 = accounts ∧ status (handle g req accounts).2 = 403.
Proof.
  intros g req.
  apply (role_guard_403 g req accounts [instructor; admin]
           (ReqUser.mk 1 "a@x.com" student (Some 2%nat) [])).
  - reflexivity.
  - vm_compute. reflexivity.
  - apply (bool_decide_unpack _). vm_compute. exact I.
Defined.

(** X4. Updating an account, a profile, a course or a review, and
    deleting a course or a review, is answered 403 and writes nothing
    when the principal is neither the owner of the document nor an
    administrator. *)
Theorem owner_guard_403 (g : Gen) (req : Request) (db : Db.t) (o : ObjectId)
    (me : ReqUser.t) :
  owner db (endpoint req) = Some o →
  principal db req = Some me → ReqUser._id me ≠ o → ReqUser.role me ≠ admin →
  (handle g req db).1 = db ∧ status (handle g req db).2 = 403.
Proof.
  destruct req as [auth ep]. simpl. intros Ho Hme Hid Hrole.
  apply (post_handle_response g _ db (λ db' res, db' = db ∧ status res = 403)).
  unfold route. simpl.
  destruct ep; try discriminate Ho; simpl in Ho;
    apply post_bind, (post_protect _ _ _ _ _ Hme); cbv beta iota;
    wp; try done.
  all: simplify_eq/=; try done.
  all: exfalso;
    match goal with
    | H : bool_decide (_ ≠ _) && bool_decide (_ ≠ _) = false |- _ =>
        apply andb_false_iff in H as [H|H];
        apply bool_decide_eq_false_1, dec_stable in H; congruence
    end.
Qed.

Lemma owner_guard_403_witness :
  let g := mkGen 13 0 20 in
  let req := mkRequest (bearer 1) (PutUser 3 (UserBody.mk (Some "c@x.com") None)) in
  (handle g req accounts).1 = accounts ∧ status (handle g req accounts).2 = 403.
Proof.
  intros g req.
  apply (owner_guard_403 g req accounts 3%nat
           (ReqUser.mk 1 "a@x.com" student (Some 2%nat) [])).
  - vm_compute. reflexivity.
  - vm_compute. reflexivity.
  - apply (bool_decide_unpack _). vm_compute. exact I.
  - apply (bool_decide_unpack _). vm_compute. exact I.
Defined.



(** X6. A request answered with a status from 400 on sends a message
    and leaves profiles, courses and reviews as they were; only a
    registration can have written an account by then, and only a course
    update can have written categories. *)
Theorem errors_write_little (g : Gen) (req : Request) (db : Db.t) :
  400 ≤ status (handle g req db).2 →
  let db' := (handle g req db).1 in
  (∃ message, body (handle g req db).2 = Message message)
  ∧ Db.profiles db' = Db.profiles db
  ∧ Db.courses db' = Db.courses db
  ∧ Db.reviews db' = Db.reviews db
  ∧ ((∀ b, endpoint req ≠ PostRegister b) → Db.users db' = Db.users db)
  ∧ ((∀ id b, endpoint req ≠ PutCourse id b) → Db.categories db' = Db.categories db).
Proof.
  destruct req as [auth ep]. simpl.
  apply (post_handle_response g _ db (λ db' res, 400 ≤ status res →
    (∃ message, body res = Message message)
    ∧ Db.profiles db' = Db.profiles db
    ∧ Db.courses db' = Db.courses db
    ∧ Db.reviews db' = Db.reviews db
    ∧ ((∀ b, ep ≠ PostRegister b) → Db.users db' = Db.users db)
    ∧ ((∀ id b, ep ≠ PutCourse id b) → Db.categories db' = Db.categories db))).
  unfold route. simpl.
  destruct ep; wp; simpl; intros Hs; try lia.
  all: repeat split; eauto; intros Hne; try done.
  all: by edestruct Hne.
Qed.

Lemma errors_write_little_witness :
  let g := mkGen 12 0 19 in
  let db' := (handle g rejected_move catalogue).1 in
  (∃ message, body (handle g rejected_move catalogue).2 = Message message)
  ∧ Db.profiles db' = Db.profiles catalogue
  ∧ Db.courses db' = Db.courses catalogue
  ∧ Db.reviews db' = Db.reviews catalogue
  ∧ ((∀ b, endpoint rejected_move ≠ PostRegister b) → Db.users db' = Db.users catalogue)
  ∧ ((∀ id b, endpoint rejected_move ≠ PutCourse id b) →
       Db.categories db' = Db.categories catalogue).
Proof.
  intros g. apply (errors_write_little g rejected_move catalogue).
  apply Z.leb_le. vm_compute. reflexivity.
Defined.

(** X7. The API answers with one of seven status codes. *)
Theorem statuses (g : Gen) (req : Request) (db : Db.t) :
  status (handle g req db).2 ∈ [200; 201; 400; 401; 403; 404; 500].
Proof.
  destruct req as [auth ep].
  apply (post_handle_response g _ db
           (λ _ res, status res ∈ [200; 201; 400; 401; 403; 404; 500])).
  unfold route. simpl.
  destruct ep; wp; simpl; set_solver.
Qed.




(** ** What the schemas keep, request by request *)

Lemma email_in_use_inv (users : gmap ObjectId User.t) (except : ObjectId) (e : string) :
  UserModel.email_in_use users except e = false →
  ∀ i u, users !! i = Some u → User.email u = e → i = except.
Proof.
  intros H i u Hu He. apply bool_decide_eq_false_1 in H.
  destruct (decide (i = except)) as [|Hne]; [done|].
  destruct H. exists i, u. done.
Qed.

Lemma pre_save_email m s u : User.email (UserModel.pre_save m s u) = User.email u.
Proof. by destruct m. Qed.

Lemma handle_emails_unique g req db :
  emails_unique db → emails_unique (handle g req db).1.
Proof.
  intros Hinv. destruct req as [auth ep]. apply post_handle.
  unfold route. simpl.
  destruct ep; wp; try exact Hinv.
  all: boolp; intros i j u v Hi Hj He; simpl in Hi, Hj;
    lookups_in Hi; lookups_in Hj; split_lookups.
  all: try (by eapply Hinv).
  all: repeat match goal with
       | H : UserModel.email_in_use _ _ _ = false |- _ =>
           pose proof (email_in_use_inv _ _ _ H); clear H
       end.
  all: unfold UserModel.next in *; repeat case_bool_decide; simpl in *.
  all: try (by eapply Hinv).
  all: try naive_solver.
Qed.

Lemma assign_email_kept me b u :
  Str.falsy (UserBody.email b) = true →
  User.email (UserController.assign me b u) = User.email u.
Proof. unfold UserController.assign. intros ->. by case_match. Qed.

Lemma handle_accounts_valid g req db :
  accounts_valid db → accounts_valid (handle g req db).1.
Proof.
  intros Hinv. destruct req as [auth ep]. apply post_handle.
  unfold route. simpl.
  destruct ep; wp; try exact Hinv.
  all: boolp; intros i u Hi; simpl in Hi; lookups_in Hi; split_lookups.
  all: try (by eapply Hinv).
  all: repeat match goal with
       | H : (_ ++ _)%list = [] |- _ => apply app_eq_nil in H as [? ?]
       end.
  all: unfold account_valid in *; repeat case_bool_decide; simpl in *;
    unfold UserModel.next in *.
  all: try (by eapply Hinv).
  all: try (split; [done|eauto]).
  all: split; [|eauto].
  all: destruct (Str.falsy (UserBody.email b)) eqn:He; simpl in *; [|done].
  all: rewrite assign_email_kept by done; by eapply Hinv.
Qed.

Lemma assign_profile me b u :
  User.profile (UserController.assign me b u) = User.profile u.
Proof. unfold UserController.assign. repeat case_match; done. Qed.

Lemma pre_save_profile m s u : User.profile (UserModel.pre_save m s u) = User.profile u.
Proof. by destruct m. Qed.

Lemma handle_profiles_linked g req db :
  profiles_linked db → profiles_linked (handle g req db).1.
Proof.
  intros Hinv. destruct req as [auth ep]. apply post_handle.
  unfold route. simpl.
  destruct ep; wp; try exact Hinv.
  all: boolp; intros i u p Hi Hp; simpl in Hi; simpl; lookups_in Hi; split_lookups.
  all: try (by eapply Hinv).
  all: unfold UserModel.next in *; rewrite ?assign_profile in *.
  all: repeat case_bool_decide; simpl in *; simplify_eq.
  all: try (by eapply Hinv).
  all: lookups; eauto.
  all: destruct (Hinv _ _ _ Hi Hp) as (profile & Hprofile & Huser); try congruence.
  all: repeat match goal with
       | H : find_doc _ _ = Some _ |- _ => apply find_doc_Some in H as [? _]
       end.
  all: eexists; split; [reflexivity|]; simpl; congruence.
Qed.

Ltac split_checks :=
  repeat match goal with
  | H : (_ ++ _)%list = [] |- _ => apply app_eq_nil in H as [? ?]
  end.

Lemma check_nil (ok : bool) (message : string) : check ok message = [] → ok = true.
Proof. by destruct ok. Qed.

Lemma check_price_nil (v : option Z) : CourseModel.check_price v = [] → 0 ≤ default 0 v.
Proof.
  destruct v as [p|]; [|done]. simpl. intros H.
  by apply check_nil, bool_decide_eq_true_1 in H.
Qed.

Lemma check_level_nil (v : string) : CourseModel.check_level v = [] → v ∈ CourseModel.levels.
Proof. intros H. by apply check_nil, bool_decide_eq_true_1 in H. Qed.

Lemma assign_valid b c :
  course_valid c →
  CourseController.assigned_checks b (CourseController.assign b c) = [] →
  course_valid (CourseController.assign b c).
Proof.
  intros (Ht & Hd & Hp & Hl) H. unfold CourseController.assigned_checks in H.
  split_checks. unfold course_valid, CourseController.assign, or_default in *. simpl in *.
  repeat split.
  - by destruct (Str.falsy (CourseBody.title b)).
  - by destruct (Str.falsy (CourseBody.description b)).
  - destruct (CourseBody.price b) as [p|]; [|done].
    by apply check_price_nil in H1.
  - destruct (Str.falsy (CourseBody.level b)); [done|]. by apply check_level_nil.
Qed.

Lemma handle_courses_valid g req db :
  courses_valid db → courses_valid (handle g req db).1.
Proof.
  intros Hinv. destruct req as [auth ep]. apply post_handle.
  unfold route. simpl.
  destruct ep; wp; try exact Hinv.
  all: boolp; intros i c Hi; simpl in Hi; lookups_in Hi; split_lookups.
  all: try (by eapply Hinv).
  all: try (apply assign_valid; [by eapply Hinv|done]).
  all: try (match goal with
            | H : CourseController.assigned_checks _ (Course.set_categories ?l ?c) = [] |- _ =>
                change (CourseController.assigned_checks b c = []) in H;
                destruct (assign_valid _ _ ltac:(by eapply Hinv) H) as (?&?&?&?)
            end; by repeat split).
  all: try (destruct (Hinv _ _ ltac:(eassumption)) as (?&?&?&?); by repeat split).
  all: split_checks; repeat split; simpl;
    auto using check_price_nil, check_level_nil.
Qed.

Lemma check_rating_nil (v : option Z) :
  ReviewModel.check_rating v = [] → ∃ r, v = Some r ∧ 1 ≤ r ≤ 5.
Proof.
  destruct v as [r|]; [|done]. simpl. case_bool_decide as Hlo; [|done].
  intros Hhi. apply check_nil, bool_decide_eq_true_1 in Hhi. eauto.
Qed.

Lemma review_assign_valid b r :
  review_valid r →
  ReviewController.assigned_checks b (ReviewController.assign b r) = [] →
  review_valid (ReviewController.assign b r).
Proof.
  intros [Hr Hc] H. unfold ReviewController.assigned_checks in H. split_checks.
  unfold review_valid, ReviewController.assign, or_default in *. simpl in *. split.
  - destruct (ReviewController.truthy_rating b) as [x|]; [|done].
    apply check_rating_nil in H as (y & [= <-] & Hy). done.
  - by destruct (Str.falsy (ReviewBody.comment b)).
Qed.

Lemma map_Exists_false {A} (P : ObjectId → A → Prop) (m : gmap ObjectId A) i x :
  ¬ map_Exists P m → m !! i = Some x → ¬ P i x.
Proof. intros H Hi HP. apply H. by exists i, x. Qed.

Lemma handle_reviews_valid g req db :
  reviews_valid db → reviews_valid (handle g req db).1.
Proof.
  intros [Hv Hu]. destruct req as [auth ep]. apply post_handle.
  unfold route. simpl.
  destruct ep; wp; try (by split).
  all: boolp; split;
    [ intros i r Hi; simpl in Hi; lookups_in Hi; split_lookups
    | intros i j r s Hi Hj Huser Hcourse; simpl in Hi, Hj;
      lookups_in Hi; lookups_in Hj; split_lookups ].
  all: try (by eapply Hv).
  all: try (by eapply Hu).
  all: try (apply review_assign_valid; [by eapply Hv|done]).
  all: try done.
  - split_checks. split; simpl; [|done].
    by apply check_rating_nil in H as (? & -> & ?).
  - destruct (decide (i = oid g)) as [|Hne]; [done|].
    by destruct (map_Exists_false _ _ _ _ Heqb1 Hi).
  - destruct (decide (j = oid g)) as [|Hne]; [done|].
    by destruct (map_Exists_false _ _ _ _ Heqb1 Hj).
Qed.

Lemma handle_categories_valid g req db :
  categories_valid db → categories_valid (handle g req db).1.
Proof.
  intros [Hv Hu]. destruct req as [auth ep]. apply post_handle.
  unfold route. simpl.
  destruct ep; wp; try (by split).
  all: boolp; split;
    [ intros i k Hi; simpl in Hi; lookups_in Hi; split_lookups
    | intros i j k1 k2 Hi Hj Hname; simpl in Hi, Hj;
      lookups_in Hi; lookups_in Hj; split_lookups ].
  all: repeat case_bool_decide; simpl in *.
  all: try (by eapply Hv).
  all: try (by eapply Hu).
  all: try done.
  - by split_checks.
  - destruct (decide (i = oid g)) as [|Hne]; [done|].
    by destruct (map_Exists_false _ _ _ _ Heqb2 Hi).
  - destruct (decide (j = oid g)) as [|Hne]; [done|].
    by destruct (map_Exists_false _ _ _ _ Heqb2 Hj).
  - destruct (Hv _ _ Heqo1) as [Hn Hd].
    unfold CategoryController.assigned_checks in *. simpl in *. split_checks. split.
    + by destruct (Str.falsy (CategoryBody.name b)).
    + by destruct (CategoryBody.description b).
  - by destruct (map_Exists_false _ _ _ _ Heqb2 Hi).
  - by destruct (map_Exists_false _ _ _ _ Heqb2 Hj).
Qed.

Lemma NoDup_addToSet (x : ObjectId) l : NoDup l → NoDup (addToSet x l).
Proof.
  intros Hl. unfold addToSet. case_bool_decide; [done|].
  apply NoDup_app. repeat split; [done| |apply NoDup_singleton].
  intros y Hy ->%list_elem_of_singleton. done.
Qed.

Lemma NoDup_pull (x : ObjectId) l : NoDup l → NoDup (pull x l).
Proof. apply NoDup_filter. Qed.

Lemma handle_no_double_entry g req db :
  no_double_entry db → no_double_entry (handle g req db).1.
Proof.
  intros (Hc & Hu & Hk). destruct req as [auth ep]. apply post_handle.
  unfold route. simpl.
  destruct ep; wp; try (by repeat split).
  all: boolp; repeat split; intros i d Hi; simpl in Hi; lookups_in Hi; split_lookups.
  all: repeat case_bool_decide; simpl in *.
  all: try done.
  all: try (by eapply Hc).
  all: try (by eapply Hu).
  all: try (by eapply Hk).
  all: try (by apply NoDup_nil).
  all: try (apply NoDup_addToSet).
  all: try (apply NoDup_pull).
  all: try (by eapply Hc).
  all: try (by eapply Hu).
  all: try (by eapply Hk).
  all: try (unfold UserModel.next; rewrite ?pre_save_enrolledCourses, assign_enrolledCourses;
            by eapply Hu).
  apply NoDup_app. repeat split; [by eapply Hc| |apply NoDup_singleton].
  by intros y Hy ->%list_elem_of_singleton.
Qed.

Lemma handle_instructors_kept g req db :
  instructors_kept db (handle g req db).1.
Proof.
  destruct req as [auth ep]. apply post_handle.
  unfold route. simpl.
  destruct ep; wp.
  all: boolp; intros i c c' Hi Hi'; simpl in Hi'; lookups_in Hi'; split_lookups.
  all: congruence.
Qed.

Lemma profile_assign_valid b p :
  ProfileModel.check_firstName (Profile.firstName p) = []
  ∧ ProfileModel.check_lastName (Profile.lastName p) = []
  ∧ ProfileModel.check_bio (Profile.bio p) = [] →
  ProfileController.assigned_checks b (ProfileController.assign b p) = [] →
  let p' := ProfileController.assign b p in
  ProfileModel.check_firstName (Profile.firstName p') = []
  ∧ ProfileModel.check_lastName (Profile.lastName p') = []
  ∧ ProfileModel.check_bio (Profile.bio p') = [].
Proof.
  intros (Hf & Hl & Hb) H. unfold ProfileController.assigned_checks in H.
  split_checks. simpl in *. repeat split.
  - by destruct (Str.falsy (ProfileBody.firstName b)).
  - by destruct (Str.falsy (ProfileBody.lastName b)).
  - by destruct (ProfileBody.bio b).
Qed.

Ltac found :=
  repeat match goal with
  | H : find_doc _ _ = Some _ |- _ => apply find_doc_Some in H as [? ?]
  end.

Lemma handle_profiles_valid g req db :
  profiles_valid db → profiles_valid (handle g req db).1.
Proof.
  intros [Hv Hu]. destruct req as [auth ep]. apply post_handle.
  unfold route. simpl.
  destruct ep; wp; try (by split).
  all: boolp; split;
    [ intros i p Hi; simpl in Hi; lookups_in Hi; split_lookups
    | intros i j p1 p2 Hi Hj Huser; simpl in Hi, Hj;
      lookups_in Hi; lookups_in Hj; split_lookups ].
  all: repeat case_bool_decide; simpl in *.
  all: try done.
  all: try (by eapply Hv).
  all: try (by eapply Hu).
  all: found.
  all: try (match goal with
            | H : ProfileController.assigned_checks ?b (ProfileController.assign ?b ?p) = []
              |- _ => apply (profile_assign_valid b p); [by eapply Hv|done]
            end).
  all: try (match goal with
            | H : ¬ map_Exists _ ?m, Hi : ?m !! _ = Some _ |- _ =>
                by destruct (map_Exists_false _ _ _ _ H Hi)
            end).
  split_checks. by repeat split.
Qed.

(** ** The schemas, in every state the API reaches *)

Ltac empty_collection :=
  repeat split; hnf; intros;
  repeat match goal with
  | H : _ !! _ = Some _ |- _ => simpl in H; by rewrite lookup_empty in H
  end.

Ltac reach :=
  unfold Session.course_deleted, Session.reviewed, moved, student_deleted, enrolled,
    catalogue, accounts, after;
  repeat (apply reachable_handle; [|freshness]);
  apply reachable_empty.

Lemma reviewed_has_review :
  Db.reviews Session.reviewed !! 13%nat = Some (Review.mk 5 "Clear" 1%nat 9%nat).
Proof. vm_compute. reflexivity. Qed.

(** X9. No two stored accounts have the same email: the unique index of
    models/User.js holds in every state the API reaches. *)
Theorem reachable_emails_unique (db : Db.t) : reachable db → emails_unique db.
Proof.
  induction 1 as [|g req db _ IH _]; [empty_collection|by apply handle_emails_unique].
Qed.

Lemma reachable_emails_unique_witness : emails_unique student_deleted.
Proof. apply reachable_emails_unique. reach. Defined.

(** X10. In every state the API reaches, the email of a stored account
    passes the validators of its path and the stored password is a
    bcrypt hash, never the text that was sent. *)
Theorem reachable_accounts_valid (db : Db.t) : reachable db → accounts_valid db.
Proof.
  induction 1 as [|g req db _ IH _]; [empty_collection|by apply handle_accounts_valid].
Qed.

Lemma reachable_accounts_valid_witness : accounts_valid accounts.
Proof. apply reachable_accounts_valid. reach. Defined.

(** X11. In every state the API reaches, the profile a stored account
    names is stored and names that account. *)
Theorem reachable_profiles_linked (db : Db.t) : reachable db → profiles_linked db.
Proof.
  induction 1 as [|g req db _ IH _]; [empty_collection|by apply handle_profiles_linked].
Qed.

Lemma reachable_profiles_linked_witness : profiles_linked student_deleted.
Proof. apply reachable_profiles_linked. reach. Defined.

(** X12. In every state the API reaches, the names and the bio of a
    stored profile pass their validators, and no two profiles belong to
    the same account. *)
Theorem reachable_profiles_valid (db : Db.t) : reachable db → profiles_valid db.
Proof.
  induction 1 as [|g req db _ IH _]; [empty_collection|by apply handle_profiles_valid].
Qed.

Lemma reachable_profiles_valid_witness : profiles_valid moved.
Proof. apply reachable_profiles_valid. reach. Defined.

(** X13. In every state the API reaches, title and description of a
    stored course pass their validators, its price is not negative and
    its level is one of the three levels of the schema. *)
Theorem reachable_courses_valid (db : Db.t) : reachable db → courses_valid db.
Proof.
  induction 1 as [|g req db _ IH _]; [empty_collection|by apply handle_courses_valid].
Qed.

Lemma reachable_courses_valid_witness : courses_valid moved.
Proof. apply reachable_courses_valid. reach. Defined.

(** X14. In every state the API reaches, a stored review is rated from
    1 to 5 with a valid comment, and an account has at most one review
    of a course. *)
Theorem reachable_reviews_valid (db : Db.t) : reachable db → reviews_valid db.
Proof.
  induction 1 as [|g req db _ IH _]; [empty_collection|by apply handle_reviews_valid].
Qed.

Lemma reachable_reviews_valid_witness : reviews_valid Session.reviewed.
Proof. apply reachable_reviews_valid. reach. Defined.

(** X15. In every state the API reaches, name and description of a
    stored category pass their validators, and no two categories have
    the same name. *)
Theorem reachable_categories_valid (db : Db.t) : reachable db → categories_valid db.
Proof.
  induction 1 as [|g req db _ IH _]; [empty_collection|by apply handle_categories_valid].
Qed.

Lemma reachable_categories_valid_witness : categories_valid moved.
Proof. apply reachable_categories_valid. reach. Defined.

(** X16. In every state the API reaches, no course lists a student
    twice, no account lists a course twice and no category lists a
    course twice. *)
Theorem reachable_no_double_entry (db : Db.t) : reachable db → no_double_entry db.
Proof.
  induction 1 as [|g req db _ IH _]; [empty_collection|by apply handle_no_double_entry].
Qed.

Lemma reachable_no_double_entry_witness : no_double_entry Session.course_deleted.
Proof. apply reachable_no_double_entry. reach. Defined.

(** X17. No request changes the instructor of a stored course: the
    course stays with the account that created it, whoever updates it. *)
Theorem instructor_never_changes (g : Gen) (req : Request) (db : Db.t) :
  instructors_kept db (handle g req db).1.
Proof. apply handle_instructors_kept. Qed.

(** ** Accounts and sessions *)

Lemma find_doc_None {A} (P : ObjectId → A → bool) (m : gmap ObjectId A) i x :
  find_doc P m = None → m !! i = Some x → P i x = false.
Proof.
  unfold find_doc. intros H Hi.
  apply (find_none _ _ H (i, x)).
  by apply list_elem_of_In, elem_of_map_to_list.
Qed.


Lemma find_doc_is_Some {A} (P : ObjectId → A → bool) (m : gmap ObjectId A) i x :
  m !! i = Some x → P i x = true → is_Some (find_doc P m).
Proof.
  intros Hi HP. destruct (find_doc P m) as [d|] eqn:Hf; [eauto|].
  by rewrite (find_doc_None _ _ _ _ Hf Hi) in HP.
Qed.





(** X20. A registration under an email that normalises to the email of
    a stored account is answered 400 and writes nothing. *)
Theorem register_known_email_400 (g : Gen) (auth : option Authorization) (db : Db.t)
    (b : RegisterBody.t) (id : ObjectId) (account : User.t) :
  Db.users db !! id = Some account →
  User.email account = UserModel.normalize_email (RegisterBody.email b) →
  handle g (mkRequest auth (PostRegister b)) db
  = (db, mkResponse 400 (Message "Cet email est déjà utilisé")).
Proof.
  intros Hid He. rewrite handle_respond. unfold route. simpl.
  unfold AuthController.register, UserModel.findOne_email. unfold_m. simpl.
  destruct (find_doc_is_Some
              (λ _ u, Str.eqb (User.email u) (UserModel.normalize_email (RegisterBody.email b)))
              _ _ _ Hid) as [d ->]; [by apply bool_decide_eq_true_2|].
  done.
Qed.

Lemma register_known_email_400_witness :
  let b := RegisterBody.mk "A@x.com " "another1" (Some "Al") (Some "Ko") (Some "admin") in
  handle (mkGen 13 0 20) (mkRequest None (PostRegister b)) accounts
  = (accounts, mkResponse 400 (Message "Cet email est déjà utilisé")).
Proof.
  intros b.
  apply (register_known_email_400 (mkGen 13 0 20) None accounts b 1%nat
           (User.mk "a@x.com" (Bcrypt.Hash (Bcrypt.Plain "secret1") 11) student
                    (Some 2%nat) [])).
  - vm_compute. reflexivity.
  - vm_compute. reflexivity.
Defined.

(** X22. When an administrator sends a role in an account update that
    is answered 200, the stored account has that role. *)
Theorem admin_sets_role (g : Gen) (auth : option Authorization) (db : Db.t)
    (id : ObjectId) (b : UserBody.t) (me : ReqUser.t) :
  principal db (mkRequest auth (PutUser id b)) = Some me →
  ReqUser.role me = admin →
  Str.falsy (UserBody.role b) = false →
  let res := handle g (mkRequest auth (PutUser id b)) db in
  status res.2 = 200 →
  ∃ account, Db.users res.1 !! id = Some account
    ∧ role_of_string (default "" (UserBody.role b)) = Some (User.role account).
Proof.
  intros Hme Hadm Hrole res. subst res.
  apply (post_handle_response g _ db (λ db' res, status res = 200 →
    ∃ account, Db.users db' !! id = Some account
      ∧ role_of_string (default "" (UserBody.role b)) = Some (User.role account))).
  unfold route. simpl.
  apply post_bind, (post_protect _ _ _ _ _ Hme); cbv beta iota.
  wp; simpl; intros Hs; try discriminate Hs.
  eexists. split; [apply lookup_insert_eq|]. rewrite pre_save_role.
  apply app_eq_nil in Heql as [_ Hcheck].
  unfold UserController.assign, UserController.role_assigned in *.
  rewrite Hrole, (bool_decide_eq_true_2 _ Hadm) in *. simpl in *.
  destruct (UserBody.role b) as [r|]; [|done]. simpl in *.
  apply check_nil, bool_decide_eq_true_1 in Hcheck as [role Hr].
  by rewrite Hr.
Qed.

Lemma admin_sets_role_witness :
  let req := mkRequest (bearer 5) (PutUser 1 (UserBody.mk None (Some "instructor"))) in
  ∃ account, Db.users (handle (mkGen 13 0 20) req accounts).1 !! 1%nat = Some account
    ∧ role_of_string "instructor" = Some (User.role account).
Proof.
  intros req.
  apply (admin_sets_role (mkGen 13 0 20) (bearer 5) accounts 1%nat
           (UserBody.mk None (Some "instructor"))
           (ReqUser.mk 5 "root@x.com" admin (Some 6%nat) [])).
  all: vm_compute; reflexivity.
Defined.

(** ** Reviews and deletions *)

(** X21. A review of a course by a principal who has a stored review of
    that course is answered 400 and writes nothing. *)
Theorem second_review_400 (g : Gen) (auth : option Authorization) (db : Db.t)
    (b : ReviewBody.t) (me : ReqUser.t) (course : Course.t) (id : ObjectId)
    (review : Review.t) :
  principal db (mkRequest auth (PostReview b)) = Some me →
  Db.courses db !! ReviewBody.courseId b = Some course →
  Db.reviews db !! id = Some review →
  Review.user review = ReqUser._id me →
  Review.course review = ReviewBody.courseId b →
  handle g (mkRequest auth (PostReview b)) db
  = (db, mkResponse 400 (Message "Vous avez déjà laissé un avis pour ce cours")).
Proof.
  intros Hme Hc Hr Hu Hrc. rewrite handle_respond. unfold route. simpl.
  unfold_m. rewrite (protect_principal _ _ _ _ Hme). simpl.
  unfold ReviewController.createReview, CourseModel.findById. unfold_m. simpl.
  rewrite Hc. simpl. unfold ReviewModel.findOne_user_course. unfold_m. simpl.
  destruct (find_doc_is_Some
              (λ _ r, bool_decide (Review.user r = ReqUser._id me)
                      && bool_decide (Review.course r = ReviewBody.courseId b))
              _ _ _ Hr) as [d ->]; [|done].
  by rewrite !bool_decide_eq_true_2.
Qed.

Lemma second_review_400_witness :
  let req := mkRequest (bearer 1) (PostReview (ReviewBody.mk (Some 3) (Some "Again") 9%nat)) in
  handle (mkGen 14 0 21) req Session.reviewed
  = (Session.reviewed,
     mkResponse 400 (Message "Vous avez déjà laissé un avis pour ce cours")).
Proof.
  intros req.
  apply (second_review_400 (mkGen 14 0 21) (bearer 1) Session.reviewed
           (ReviewBody.mk (Some 3) (Some "Again") 9%nat)
           (ReqUser.mk 1 "a@x.com" student (Some 2%nat) [9%nat])
           (Course.mk "Rocq" "Proofs" 10 "" "débutant" 0 3%nat [7%nat] [1%nat] true)
           13%nat (Review.mk 5 "Clear" 1%nat 9%nat)).
  all: vm_compute; reflexivity.
Defined.

(** X23. After a course deletion answered 200 the course is gone, no
    stored account and no stored category lists it, and reviews and
    profiles are as they were: the reviews of the course stay. *)
Theorem deleteCourse_cleans_references (g : Gen) (auth : option Authorization)
    (db : Db.t) (id : ObjectId) :
  let res := handle g (mkRequest auth (DeleteCourse id)) db in
  status res.2 = 200 →
  Db.courses res.1 !! id = None
  ∧ (∀ a account, Db.users res.1 !! a = Some account → id ∉ User.enrolledCourses account)
  ∧ (∀ k category, Db.categories res.1 !! k = Some category → id ∉ Category.courses category)
  ∧ Db.reviews res.1 = Db.reviews db
  ∧ Db.profiles res.1 = Db.profiles db.
Proof.
  intros res. subst res.
  apply (post_handle_response g _ db (λ db' res, status res = 200 →
    Db.courses db' !! id = None
    ∧ (∀ a account, Db.users db' !! a = Some account → id ∉ User.enrolledCourses account)
    ∧ (∀ k category, Db.categories db' !! k = Some category → id ∉ Category.courses category)
    ∧ Db.reviews db' = Db.reviews db
    ∧ Db.profiles db' = Db.profiles db)).
  unfold route. simpl. wp; simpl; intros Hs; try discriminate Hs.
  repeat split.
  - apply lookup_delete_eq.
  - intros a account Ha. lookups_in Ha. split_lookups.
    match goal with |- context [bool_decide ?P] => destruct (bool_decide_reflect P) end;
      simpl; [by intros [? _]%elem_of_pull|done].
  - intros k category Hk. lookups_in Hk. split_lookups.
    match goal with |- context [bool_decide ?P] => destruct (bool_decide_reflect P) end;
      simpl; [by intros [? _]%elem_of_pull|done].
Qed.

Lemma deleteCourse_cleans_references_witness :
  let res := handle (mkGen 14 0 21) (mkRequest (bearer 3) (DeleteCourse 9)) Session.reviewed in
  Db.courses res.1 !! 9%nat = None
  ∧ (∀ a account, Db.users res.1 !! a = Some account → 9%nat ∉ User.enrolledCourses account)
  ∧ (∀ k category, Db.categories res.1 !! k = Some category →
       9%nat ∉ Category.courses category)
  ∧ Db.reviews res.1 = Db.reviews Session.reviewed
  ∧ Db.profiles res.1 = Db.profiles Session.reviewed.
Proof.
  apply (deleteCourse_cleans_references (mkGen 14 0 21) (bearer 3) Session.reviewed 9%nat).
  vm_compute. reflexivity.
Defined.

(** X24. An account deletion answered 200 removes the account and
    nothing else: the profile of the account, the courses it created or
    follows and its reviews stay. *)
Theorem deleteUser_removes_account_only (g : Gen) (auth : option Authorization)
    (db : Db.t) (id : ObjectId) :
  let res := handle g (mkRequest auth (DeleteUser id)) db in
  status res.2 = 200 →
  Db.users res.1 = delete id (Db.users db)
  ∧ Db.profiles res.1 = Db.profiles db
  ∧ Db.courses res.1 = Db.courses db
  ∧ Db.categories res.1 = Db.categories db
  ∧ Db.reviews res.1 = Db.reviews db.
Proof.
  intros res. subst res.
  apply (post_handle_response g _ db (λ db' res, status res = 200 →
    Db.users db' = delete id (Db.users db)
    ∧ Db.profiles db' = Db.profiles db
    ∧ Db.courses db' = Db.courses db
    ∧ Db.categories db' = Db.categories db
    ∧ Db.reviews db' = Db.reviews db)).
  unfold route. simpl. wp; simpl; intros Hs; try discriminate Hs.
  done.
Qed.

Lemma deleteUser_removes_account_only_witness :
  let res := handle (mkGen 11 0 18) (mkRequest (bearer 5) (DeleteUser 1)) enrolled in
  Db.users res.1 = delete 1%nat (Db.users enrolled)
  ∧ Db.profiles res.1 = Db.profiles enrolled
  ∧ Db.courses res.1 = Db.courses enrolled
  ∧ Db.categories res.1 = Db.categories enrolled
  ∧ Db.reviews res.1 = Db.reviews enrolled.
Proof.
  apply (deleteUser_removes_account_only (mkGen 11 0 18) (bearer 5) enrolled 1%nat).
  vm_compute. reflexivity.
Defined.
